(** * terraform-provider-cloudsqlmysql: grants, audit rules, connection registry

    A shallow embedding of the provider's core (package [provider]):
    - [resource_grant_database.go]: the privilege decoding of a [mysql.db]
      row, the reconcile loop of [Read], [userOrRole], [Create] and the
      declared config validators;
    - [resource_audit_rule.go]: the stored-procedure confirm step, the
      row/plan comparison and [Create];
    - [config.go]: the connection registry;
    - [resource_role.go], [data_source_database.go] and the provider's
      [Configure]: the role resource, the database data source and the
      settings that reach the registry.

    Go strings are byte strings ([string]); [int16]/[int64] values are [Z];
    the [*sql.DB] handle is explicit state passing over an abstract driver;
    the registry is a [gmap]. *)

From Stdlib Require Import ZArith Lia Bool Ascii String List.
From Stdlib Require Import DecimalString.
From stdpp Require Import gmap strings list.
Import ListNotations.

Local Open Scope string_scope.
Local Open Scope list_scope.

(** ** Values of the plugin framework ([types.String], [types.Bool],
       [types.Int64]) and diagnostics *)

Module types.

(** [types.String]: null, unknown, or a known Go string. *)
Inductive String : Type :=
| StringNull
| StringUnknown
| StringValue (s : string).

Definition IsNull (v : String) : bool :=
  match v with StringNull => true | _ => false end.

(** [ValueString] is the empty string for null and unknown values. *)
Definition ValueString (v : String) : string :=
  match v with StringValue s => s | _ => "" end.

Inductive Bool : Type :=
| BoolNull
| BoolUnknown
| BoolValue (b : bool).

Definition ValueBool (v : Bool) : bool :=
  match v with BoolValue b => b | _ => false end.

Inductive Int64 : Type :=
| Int64Null
| Int64Unknown
| Int64Value (z : Z).

Definition ValueInt64 (v : Int64) : Z :=
  match v with Int64Value z => z | _ => 0%Z end.

End types.

(** A Go [error] value: [None] is [nil], [Some msg] an error whose
    [Error()] text is [msg]. *)
Definition error : Type := option string.

Definition errors_New (msg : string) : error := Some msg.

Module diag.

Inductive Severity : Type := SeverityError | SeverityWarning.

Record Diagnostic : Type := mkDiagnostic {
  severity : Severity;
  summary : string;
  detail : string
}.

Definition Diagnostics : Type := list Diagnostic.

Definition isError (d : Diagnostic) : bool :=
  match severity d with SeverityError => true | SeverityWarning => false end.

Definition HasError (ds : Diagnostics) : bool := existsb isError ds.

Definition AddError (ds : Diagnostics) (summ det : string) : Diagnostics :=
  ds ++ [mkDiagnostic SeverityError summ det].

Definition Append (ds more : Diagnostics) : Diagnostics := ds ++ more.

End diag.

(** ** [strings.EqualFold] on ASCII text

    Go compares byte by byte while both bytes are below [utf8.RuneSelf]:
    equal bytes match, otherwise the smaller one must be an upper-case
    letter and the larger one its lower-case form; at the end both strings
    must be exhausted. *)

Definition byteFoldEq (a b : ascii) : bool :=
  let sr := N_of_ascii a in
  let tr := N_of_ascii b in
  if (tr =? sr)%N then true
  else
    let (sr, tr) := if (tr <? sr)%N then (tr, sr) else (sr, tr) in
    (65 <=? sr)%N && (sr <=? 90)%N && (tr =? sr + 32)%N.

Fixpoint asciiEqualFold (s t : string) : bool :=
  match s, t with
  | EmptyString, EmptyString => true
  | String a s', String b t' =>
      if byteFoldEq a b then asciiEqualFold s' t' else false
  | _, _ => false
  end.

Fixpoint isASCII (s : string) : bool :=
  match s with
  | EmptyString => true
  | String a s' => (N_of_ascii a <? 128)%N && isASCII s'
  end.

(** Lower-casing of one byte, and the pairwise check that no two of a
    list of names fold to each other. *)
Definition lowerByte (n : N) : N :=
  if ((65 <=? n) && (n <=? 90))%N then (n + 32)%N else n.

Fixpoint asciiDistinctb (names : list string) : bool :=
  match names with
  | [] => true
  | n :: rest =>
      forallb (fun p => negb (asciiEqualFold n p)) rest && asciiDistinctb rest
  end.

(** ** [fmt.Sprintf] with one [%s]

    [noPercent] holds of text without a percent sign, which formatting
    copies. [sprintf_s] formats a template whose only percent sign is that
    of one [%s] as [fmt.Sprintf] does; it stands in for Go's function where
    a property is run on such a template, and is not Go's function on other
    templates. *)

Fixpoint noPercent (s : string) : bool :=
  match s with
  | EmptyString => true
  | String a s' => negb (Ascii.eqb a "%") && noPercent s'
  end.

Fixpoint sprintf_s (template arg : string) : string :=
  match template with
  | EmptyString => EmptyString
  | String a rest =>
      if Ascii.eqb a "%" then
        match rest with
        | String b rest' =>
            if Ascii.eqb b "s" then arg +:+ rest'
            else String a (sprintf_s rest arg)
        | EmptyString => String a EmptyString
        end
      else String a (sprintf_s rest arg)
  end.

(** ** The privilege codec ([dbRow]) *)

Record dbRow : Type := mkDbRow {
  Host : string;
  Db : string;
  User : string;
  SelectPriv : string;
  InsertPriv : string;
  UpdatePriv : string;
  DeletePriv : string;
  CreatePriv : string;
  DropPriv : string;
  GrantPriv : string;
  ReferencesPriv : string;
  IndexPriv : string;
  AlterPriv : string;
  CreateTmpTablePriv : string;
  LockTablesPriv : string;
  CreateViewPriv : string;
  ShowViewPriv : string;
  CreateRoutinePriv : string;
  AlterRoutinePriv : string;
  ExecutePriv : string;
  EventPriv : string;
  TriggerPriv : string
}.

Definition selectPrivBool (r : dbRow) : bool := String.eqb (SelectPriv r) "Y".
Definition insertPrivBool (r : dbRow) : bool := String.eqb (InsertPriv r) "Y".
Definition updatePrivBool (r : dbRow) : bool := String.eqb (UpdatePriv r) "Y".
Definition deletePrivBool (r : dbRow) : bool := String.eqb (DeletePriv r) "Y".
Definition createPrivBool (r : dbRow) : bool := String.eqb (CreatePriv r) "Y".
Definition dropPrivBool (r : dbRow) : bool := String.eqb (DropPriv r) "Y".
Definition grantPrivBool (r : dbRow) : bool := String.eqb (GrantPriv r) "Y".
Definition referencesPrivBool (r : dbRow) : bool := String.eqb (ReferencesPriv r) "Y".
Definition indexPrivBool (r : dbRow) : bool := String.eqb (IndexPriv r) "Y".
Definition alterPrivBool (r : dbRow) : bool := String.eqb (AlterPriv r) "Y".
Definition createTmpTablePrivBool (r : dbRow) : bool := String.eqb (CreateTmpTablePriv r) "Y".
Definition lockTablesPrivBool (r : dbRow) : bool := String.eqb (LockTablesPriv r) "Y".
Definition createViewPrivBool (r : dbRow) : bool := String.eqb (CreateViewPriv r) "Y".
Definition showViewPrivBool (r : dbRow) : bool := String.eqb (ShowViewPriv r) "Y".
Definition createRoutinePrivBool (r : dbRow) : bool := String.eqb (CreateRoutinePriv r) "Y".
Definition alterRoutinePrivBool (r : dbRow) : bool := String.eqb (AlterRoutinePriv r) "Y".
Definition executePrivBool (r : dbRow) : bool := String.eqb (ExecutePriv r) "Y".
Definition eventPrivBool (r : dbRow) : bool := String.eqb (EventPriv r) "Y".
Definition triggerPrivBool (r : dbRow) : bool := String.eqb (TriggerPriv r) "Y".

(** [if cond { privileges = append(privileges, name) }] *)
Definition appendIf (cond : bool) (privileges : list string) (name : string)
  : list string :=
  if cond then privileges ++ [name] else privileges.

(** [allPrivileges]: eighteen guarded appends, in source order. *)
Definition allPrivileges (r : dbRow) : list string :=
  let privileges := [] in
  let privileges := appendIf (selectPrivBool r) privileges "SELECT" in
  let privileges := appendIf (insertPrivBool r) privileges "INSERT" in
  let privileges := appendIf (updatePrivBool r) privileges "UPDATE" in
  let privileges := appendIf (deletePrivBool r) privileges "DELETE" in
  let privileges := appendIf (createPrivBool r) privileges "CREATE" in
  let privileges := appendIf (dropPrivBool r) privileges "DROP" in
  let privileges := appendIf (referencesPrivBool r) privileges "REFERENCES" in
  let privileges := appendIf (indexPrivBool r) privileges "INDEX" in
  let privileges := appendIf (alterPrivBool r) privileges "ALTER" in
  let privileges := appendIf (createTmpTablePrivBool r) privileges "CREATE TEMPORARY TABLES" in
  let privileges := appendIf (lockTablesPrivBool r) privileges "LOCK TABLES" in
  let privileges := appendIf (createViewPrivBool r) privileges "CREATE VIEW" in
  let privileges := appendIf (showViewPrivBool r) privileges "SHOW VIEW" in
  let privileges := appendIf (createRoutinePrivBool r) privileges "CREATE ROUTINE" in
  let privileges := appendIf (alterRoutinePrivBool r) privileges "ALTER ROUTINE" in
  let privileges := appendIf (executePrivBool r) privileges "EXECUTE" in
  let privileges := appendIf (eventPrivBool r) privileges "EVENT" in
  let privileges := appendIf (triggerPrivBool r) privileges "TRIGGER" in
  privileges.

Definition allPrivilegesStringValues (r : dbRow) : list types.String :=
  fold_left (fun privileges priv => privileges ++ [types.StringValue priv])
            (allPrivileges r) [].

Definition withGrantOption_row (r : dbRow) : types.Bool :=
  types.BoolValue (grantPrivBool r).

(** The catalog read off [allPrivileges]: the flag column each check reads
    and the keyword it appends, in the order of the checks. *)
Definition privilegeCatalog : list ((dbRow -> string) * string) :=
  [ (SelectPriv, "SELECT"); (InsertPriv, "INSERT"); (UpdatePriv, "UPDATE");
    (DeletePriv, "DELETE"); (CreatePriv, "CREATE"); (DropPriv, "DROP");
    (ReferencesPriv, "REFERENCES"); (IndexPriv, "INDEX"); (AlterPriv, "ALTER");
    (CreateTmpTablePriv, "CREATE TEMPORARY TABLES");
    (LockTablesPriv, "LOCK TABLES"); (CreateViewPriv, "CREATE VIEW");
    (ShowViewPriv, "SHOW VIEW"); (CreateRoutinePriv, "CREATE ROUTINE");
    (AlterRoutinePriv, "ALTER ROUTINE"); (ExecutePriv, "EXECUTE");
    (EventPriv, "EVENT"); (TriggerPriv, "TRIGGER") ].

Definition catalogNames : list string := map snd privilegeCatalog.

(** A row whose flag columns all carry the same marker. *)
Definition uniformRow (h d u flag : string) : dbRow :=
  mkDbRow h d u flag flag flag flag flag flag flag flag flag flag flag flag
          flag flag flag flag flag flag flag.

Definition allYesRow : dbRow := uniformRow "%" "app" "alice" "Y".

Definition allNoRow : dbRow := uniformRow "%" "app" "alice" "N".

Definition selectInsertRow : dbRow :=
  mkDbRow "%" "app" "alice" "Y" "Y" "N" "N" "N" "N" "N" "N" "N" "N" "N" "N"
          "N" "N" "N" "N" "N" "N" "N".

(** ** [database/sql]: statements, nullable scan targets, the handle *)

Module sql.

Inductive Arg : Type :=
| ArgString (s : string)
| ArgInt64 (z : Z).

(** A statement as handed to the driver: text and bound arguments. *)
Definition Stmt : Type := (string * list Arg)%type.

Record NullInt16 : Type := mkNullInt16 { Int16 : Z; Int16Valid : bool }.

Record NullString : Type := mkNullString { String_ : string; StringValid : bool }.

(** [sql.ErrNoRows], as [Scan] of a [QueryRow] without a row reports it. *)
Definition ErrNoRows : string := "sql: no rows in result set".

(** [*sql.DB] as the resource sees it: the server-side session behind
    the handle, and the statements issued through it so far. *)
Record DB (Session : Type) : Type := mkDB {
  session : Session;
  issued : list Stmt
}.
Arguments mkDB {Session}.
Arguments session {Session}.
Arguments issued {Session}.

Definition open {Session} (s : Session) : DB Session := mkDB s [].

End sql.

(** [strings.Join] *)
Fixpoint strings_Join (elems : list string) (sep : string) : string :=
  match elems with
  | [] => ""
  | [e] => e
  | e :: rest => e +:+ sep +:+ strings_Join rest sep
  end.


(** ** The database grant resource ([resource_grant_database.go]) *)

Module grant.

Record databaseGrantResourceModel : Type := mkModel {
  Database : types.String;
  User : types.String;
  Role : types.String;
  Host : types.String;
  Privileges : list types.String;
  WithGrantOption : types.Bool
}.

Definition privilegesAsString (m : databaseGrantResourceModel) : list string :=
  fold_left (fun privileges priv => privileges ++ [types.ValueString priv])
            (Privileges m) [].

Definition databaseAsString (m : databaseGrantResourceModel) : string :=
  types.ValueString (Database m).

Definition hostAsString (m : databaseGrantResourceModel) : string :=
  types.ValueString (Host m).

Definition userOrRole (m : databaseGrantResourceModel) : string * error :=
  if types.IsNull (User m) && types.IsNull (Role m) then
    ("", errors_New "user nor role are not filled in")
  else if negb (types.IsNull (User m)) then
    (types.ValueString (User m), None)
  else
    (types.ValueString (Role m), None).

Definition withGrantOption (m : databaseGrantResourceModel) : bool :=
  types.ValueBool (WithGrantOption m).

(** What [req.Plan.Get] / [req.State.Get] hand to the resource: the decoded
    model and the diagnostics of the decoding. *)
Record Request : Type := mkRequest {
  GetDiags : diag.Diagnostics;
  GetModel : databaseGrantResourceModel
}.

(** What the resource hands back: its diagnostics, and the model written
    with [resp.State.Set] ([None] while nothing was written). *)
Record Response : Type := mkResponse {
  Diagnostics : diag.Diagnostics;
  State : option databaseGrantResourceModel
}.

Definition selectPrivilegesQuery : string :=
  "SELECT " +:+
  "Host,Db,User,Select_priv,Insert_priv,Update_priv,Delete_priv,Create_priv,Drop_priv,Grant_priv,References_priv," +:+
  "Index_priv,Alter_priv,Create_tmp_table_priv,Lock_tables_priv,Create_view_priv,Show_view_priv,Create_routine_priv," +:+
  "Alter_routine_priv,Execute_priv,Event_priv,Trigger_priv" +:+
  " FROM mysql.db WHERE Host = ? AND User = ? AND Db = ?".

(** The statement [Read] sends and the diagnostic it adds when the row
    cannot be read, named for the statements of the properties. *)
Definition principal (m : databaseGrantResourceModel) : string :=
  fst (userOrRole m).

Definition readStmt (state : databaseGrantResourceModel) : sql.Stmt :=
  (selectPrivilegesQuery,
   [ sql.ArgString (hostAsString state);
     sql.ArgString (principal state);
     sql.ArgString (databaseAsString state) ]).

Definition readErrorDiagnostic (e : string) : diag.Diagnostic :=
  diag.mkDiagnostic diag.SeverityError "Error reading database privileges data"
    ("Unable to read data from the database privileges table, unexpected error: " +:+ e).

(** The statement [Delete] sends for a list of privilege names. *)
Definition revokeStmt (state : databaseGrantResourceModel)
    (names : list string) : sql.Stmt :=
  ("REVOKE " +:+ strings_Join names ", " +:+ " ON " +:+
   databaseAsString state +:+ ".* FROM " +:+ principal state +:+
   "@'" +:+ hostAsString state +:+ "'", []).

(** *** The declared config validators

    [Conflicting] and [AtLeastOneOf] come from the framework's validator
    library: the first reports an error when more than one of its paths
    holds a known, non-null value; the second when none of them does and
    none is unknown. *)

Inductive ConfigValidator : Type :=
| Conflicting (paths : list string)
| AtLeastOneOf (paths : list string).

Definition ConfigValidators : list ConfigValidator :=
  [ Conflicting ["user"; "role"]; AtLeastOneOf ["user"; "role"] ].

Inductive AttrState : Type := AttrNull | AttrUnknown | AttrKnown.

Definition stringState (v : types.String) : AttrState :=
  match v with
  | types.StringNull => AttrNull
  | types.StringUnknown => AttrUnknown
  | types.StringValue _ => AttrKnown
  end.

Definition boolState (v : types.Bool) : AttrState :=
  match v with
  | types.BoolNull => AttrNull
  | types.BoolUnknown => AttrUnknown
  | types.BoolValue _ => AttrKnown
  end.

(** [config.GetAttribute] at a root path of the schema. *)
Definition GetAttribute (config : databaseGrantResourceModel) (name : string)
  : option AttrState :=
  if String.eqb name "database" then Some (stringState (Database config))
  else if String.eqb name "user" then Some (stringState (User config))
  else if String.eqb name "role" then Some (stringState (Role config))
  else if String.eqb name "host" then Some (stringState (Host config))
  else if String.eqb name "with_grant_option" then Some (boolState (WithGrantOption config))
  else if String.eqb name "privileges" then Some AttrKnown
  else None.

Definition isConfigured (config : databaseGrantResourceModel) (name : string) : bool :=
  match GetAttribute config name with Some AttrKnown => true | _ => false end.

Definition isUnknown (config : databaseGrantResourceModel) (name : string) : bool :=
  match GetAttribute config name with Some AttrUnknown => true | _ => false end.

Definition Validate (v : ConfigValidator) (config : databaseGrantResourceModel)
  : diag.Diagnostics :=
  match v with
  | Conflicting paths =>
      let configuredPaths := List.filter (isConfigured config) paths in
      if (1 <? length configuredPaths)%nat then
        diag.AddError [] "Invalid Attribute Combination"
          ("These attributes cannot be configured together: [" +:+
           strings_Join configuredPaths "," +:+ "]")
      else []
  | AtLeastOneOf paths =>
      let configuredPaths := List.filter (isConfigured config) paths in
      let unknownPaths := List.filter (isUnknown config) paths in
      if (length configuredPaths =? 0)%nat && (length unknownPaths =? 0)%nat then
        diag.AddError [] "Missing Attribute Configuration"
          ("At least one of these attributes must be configured: [" +:+
           strings_Join paths "," +:+ "]")
      else []
  end.

(** The framework's [ValidateResourceConfig]: every declared validator
    runs and all diagnostics are collected. *)
Definition ValidateResourceConfig (config : databaseGrantResourceModel)
  : diag.Diagnostics :=
  flat_map (fun v => Validate v config) ConfigValidators.

Section Resource.

(** [strings.EqualFold]: Go's standard library, with its Unicode fold
    tables. *)
Variable EqualFold : string -> string -> bool.

(** The MySQL session behind the handle: executing a statement, and
    [QueryRowContext(...).Scan] into a [dbRow]. *)
Variable Session : Type.
Variable driverExec : Session -> sql.Stmt -> error * Session.
Variable driverQueryRow : Session -> sql.Stmt -> (string + dbRow) * Session.

Definition ExecContext (db : sql.DB Session) (query : string) (args : list sql.Arg)
  : error * sql.DB Session :=
  let (err, s) := driverExec (sql.session db) (query, args) in
  (err, sql.mkDB s (sql.issued db ++ [(query, args)])).

Definition QueryRowContext_Scan (db : sql.DB Session) (query : string)
    (args : list sql.Arg) : (string + dbRow) * sql.DB Session :=
  let (res, s) := driverQueryRow (sql.session db) (query, args) in
  (res, sql.mkDB s (sql.issued db ++ [(query, args)])).

Definition Create (req : Request) (db : sql.DB Session)
  : Response * sql.DB Session :=
  let plan := GetModel req in
  let diags := diag.Append [] (GetDiags req) in
  if diag.HasError diags then (mkResponse diags None, db) else
  let (userOrRole, err) := userOrRole plan in
  match err with
  | Some e =>
      (mkResponse
         (diag.AddError diags "Error in input values"
            ("No value for user nor role, unexpected error: " +:+ e)) None, db)
  | None =>
      let sqlStatement :=
        "GRANT " +:+ strings_Join (privilegesAsString plan) ", " +:+
        " ON " +:+ databaseAsString plan +:+ ".* TO " +:+ userOrRole +:+
        "@'" +:+ hostAsString plan +:+ "'" in
      let sqlStatement :=
        if withGrantOption plan then sqlStatement +:+ " WITH GRANT OPTION"
        else sqlStatement in
      let (err, db) := ExecContext db sqlStatement [] in
      match err with
      | Some e =>
          (mkResponse
             (diag.AddError diags "Error granting database permissions"
                ("Unable to grant permissions to " +:+ userOrRole +:+
                 ", unexpected error: " +:+ e)) None, db)
      | None => (mkResponse diags (Some plan), db)
      end
  end.

(** The inner loop of [Read]: the first state entry that folds to the row
    permission is appended and the search stops. *)
Fixpoint searchState (statePrivileges : list types.String)
    (rowPermission : types.String) (privileges : list types.String)
  : bool * list types.String :=
  match statePrivileges with
  | [] => (false, privileges)
  | statePermission :: rest =>
      if EqualFold (types.ValueString statePermission)
                   (types.ValueString rowPermission)
      then (true, privileges ++ [statePermission])
      else searchState rest rowPermission privileges
  end.

(** The outer loop of [Read] (lines 172-185). *)
Definition reconcile (statePrivileges rowPermissions : list types.String)
  : list types.String :=
  fold_left
    (fun privileges rowPermission =>
       let (found, privileges) :=
         searchState statePrivileges rowPermission privileges in
       if negb found then privileges ++ [rowPermission] else privileges)
    rowPermissions [].

(** What one pass of the outer loop emits for an observed entry: the
    first desired entry that folds to it, or the observed entry. *)
Definition firstMatch (D : list types.String) (o : types.String)
  : option types.String :=
  List.find (fun d => EqualFold (types.ValueString d) (types.ValueString o)) D.

Definition emitted (D : list types.String) (o : types.String) : types.String :=
  match firstMatch D o with Some d => d | None => o end.

(** Observed lists without two entries that fold to each other. *)
Fixpoint foldDistinct (l : list types.String) : Prop :=
  match l with
  | [] => True
  | o :: l' =>
      (forall p, In p l' ->
                 EqualFold (types.ValueString o) (types.ValueString p) = false) /\
      foldDistinct l'
  end.

Definition Read (req : Request) (db : sql.DB Session)
  : Response * sql.DB Session :=
  let state := GetModel req in
  let diags := diag.Append [] (GetDiags req) in
  if diag.HasError diags then (mkResponse diags None, db) else
  let (userOrRole, err) := userOrRole state in
  match err with
  | Some e =>
      (mkResponse
         (diag.AddError diags "Error in input values"
            ("No value for user nor role, unexpected error: " +:+ e)) None, db)
  | None =>
      let (res, db) :=
        QueryRowContext_Scan db selectPrivilegesQuery
          [ sql.ArgString (hostAsString state); sql.ArgString userOrRole;
            sql.ArgString (databaseAsString state) ] in
      match res with
      | inl e =>
          (mkResponse
             (diag.AddError diags "Error reading database privileges data"
                ("Unable to read data from the database privileges table, unexpected error: " +:+ e))
             None, db)
      | inr row =>
          let privileges :=
            reconcile (Privileges state) (allPrivilegesStringValues row) in
          let state :=
            mkModel (Database state) (User state) (Role state) (Host state)
                    privileges (withGrantOption_row row) in
          (mkResponse diags (Some state), db)
      end
  end.

(** [Update] is empty: every attribute forces replacement. *)
Definition Update (req : Request) (db : sql.DB Session)
  : Response * sql.DB Session :=
  (mkResponse [] None, db).

Definition Delete (req : Request) (db : sql.DB Session)
  : Response * sql.DB Session :=
  let state := GetModel req in
  let diags := diag.Append [] (GetDiags req) in
  if diag.HasError diags then (mkResponse diags None, db) else
  let (userOrRole, err) := userOrRole state in
  match err with
  | Some e =>
      (mkResponse
         (diag.AddError diags "Error in input values"
            ("No value for user nor role, unexpected error: " +:+ e)) None, db)
  | None =>
      let sqlStatement :=
        "REVOKE " +:+ strings_Join (privilegesAsString state) ", " +:+
        " ON " +:+ databaseAsString state +:+ ".* FROM " +:+ userOrRole +:+
        "@'" +:+ hostAsString state +:+ "'" in
      let (err, db) := ExecContext db sqlStatement [] in
      match err with
      | Some e =>
          (mkResponse
             (diag.AddError diags "Error removing grant database permissions"
                ("Unable to remove grant permissions from " +:+ userOrRole +:+
                 ", unexpected error: " +:+ e)) None, db)
      | None => (mkResponse diags None, db)
      end
  end.

(** The state [Read] writes for a row. *)
Definition readState (state : databaseGrantResourceModel) (row : dbRow)
  : databaseGrantResourceModel :=
  mkModel (Database state) (User state) (Role state)
    (Host state)
    (reconcile (Privileges state) (allPrivilegesStringValues row))
    (withGrantOption_row row).

(** A grant is created through the plugin framework, which validates the
    configuration with the validators the resource declares before it
    plans and applies: [Create] runs only when no validator reported an
    error. The resource file only declares the validators; the ordering is
    the framework's. [user] and [role] are not computed, so the plan
    carries their configured values. *)
Definition validatedCreate (req : Request) (db : sql.DB Session)
  : Response * sql.DB Session :=
  let diags := ValidateResourceConfig (GetModel req) in
  if diag.HasError diags then (mkResponse diags None, db) else Create req db.

End Resource.

End grant.


(** ** The audit rule resource ([resource_audit_rule.go]) *)

Module audit.

Record auditRuleResourceModel : Type := mkModel {
  Id : types.Int64;
  User : types.String;
  Database : types.String;
  Object : types.String;
  Operation : types.String;
  OpsResult : types.String
}.

Module row.

Record auditRuleRow : Type := mkRow {
  Id : Z;
  User : string;
  Dbname : string;
  Object : string;
  Operation : string;
  OpResult : string
}.

End row.

Record Request : Type := mkRequest {
  GetDiags : diag.Diagnostics;
  GetModel : auditRuleResourceModel
}.

Record Response : Type := mkResponse {
  Diagnostics : diag.Diagnostics;
  State : option auditRuleResourceModel
}.

Definition createSummary : string := "Unable to create the audit rule".

Definition createDetail (cause : string) : string :=
  "An unexpected error occured while creating the audit rule: " +:+ cause.

Definition notFoundAfterCreation : string :=
  "the audit rule is not found after creation".

(** The three statements of [Create], as the driver receives them. *)
Definition confirmStmt : sql.Stmt := ("SELECT @outval, @outmsg;", []).

Definition listStmt : sql.Stmt :=
  ("CALL mysql.cloudsql_list_audit_rule('*',@outval,@outmsg);", []).

Definition createStmt (plan : auditRuleResourceModel) : sql.Stmt :=
  ("CALL mysql.cloudsql_create_audit_rule(?,?,?,?,?,1, @outval,@outmsg);",
   [ sql.ArgString (types.ValueString (User plan));
     sql.ArgString (types.ValueString (Database plan));
     sql.ArgString (types.ValueString (Object plan));
     sql.ArgString (types.ValueString (Operation plan));
     sql.ArgString (types.ValueString (OpsResult plan)) ]).

(** The calls of [Read], [Update] and [Delete], and the state [Read]
    writes for the row it scanned. *)
Definition readRuleStmt (id : Z) : sql.Stmt :=
  ("CALL mysql.cloudsql_list_audit_rule(?,@outval,@outmsg);", [sql.ArgInt64 id]).



Definition rowModel (r : row.auditRuleRow) : auditRuleResourceModel :=
  mkModel (types.Int64Value (row.Id r)) (types.StringValue (row.User r))
          (types.StringValue (row.Dbname r)) (types.StringValue (row.Object r))
          (types.StringValue (row.Operation r))
          (types.StringValue (row.OpResult r)).

Section Resource.

Variable EqualFold : string -> string -> bool.

(** The MySQL session behind the handle: a procedure call executed for its
    effect, the [QueryRow(...).Scan] of the two session variables, and the
    listing query, whose result is what [rows.Next]/[rows.Scan] deliver row
    after row (a scan either fails or fills an [auditRuleRow]). *)
Variable Session : Type.
Variable driverExec : Session -> sql.Stmt -> error * Session.
Variable driverQueryOut :
  Session -> sql.Stmt -> (string + sql.NullInt16 * sql.NullString) * Session.
Variable driverQuery :
  Session -> sql.Stmt -> (string + list (string + row.auditRuleRow)) * Session.

Definition ExecContext (db : sql.DB Session) (query : string) (args : list sql.Arg)
  : error * sql.DB Session :=
  let (err, s) := driverExec (sql.session db) (query, args) in
  (err, sql.mkDB s (sql.issued db ++ [(query, args)])).

Definition QueryRowContext_Scan (db : sql.DB Session) (query : string)
    (args : list sql.Arg)
  : (string + sql.NullInt16 * sql.NullString) * sql.DB Session :=
  let (res, s) := driverQueryOut (sql.session db) (query, args) in
  (res, sql.mkDB s (sql.issued db ++ [(query, args)])).

Definition QueryContext (db : sql.DB Session) (query : string)
    (args : list sql.Arg)
  : (string + list (string + row.auditRuleRow)) * sql.DB Session :=
  let (res, s) := driverQuery (sql.session db) (query, args) in
  (res, sql.mkDB s (sql.issued db ++ [(query, args)])).

Definition auditRuleStoredProcedureResponse (db : sql.DB Session)
  : error * sql.DB Session :=
  let (res, db) := QueryRowContext_Scan db "SELECT @outval, @outmsg;" [] in
  match res with
  | inl e => (Some e, db)
  | inr (outval, outmsg) =>
      if (0 <? sql.Int16 outval)%Z then (errors_New (sql.String_ outmsg), db)
      else (None, db)
  end.

Definition equalsModel (r : row.auditRuleRow) (model : auditRuleResourceModel)
  : bool :=
  if negb (EqualFold (row.User r) (types.ValueString (User model))) then false
  else if negb (EqualFold (row.Dbname r) (types.ValueString (Database model))) then false
  else if negb (EqualFold (row.Object r) (types.ValueString (Object model))) then false
  else if negb (EqualFold (row.Operation r) (types.ValueString (Operation model))) then false
  else if negb (EqualFold (row.OpResult r) (types.ValueString (OpsResult model))) then false
  else true.

(** The five fields of a listed row fold to the plan's values. *)
Definition fieldsMatch (r : row.auditRuleRow)
    (plan : auditRuleResourceModel) : Prop :=
  EqualFold (row.User r) (types.ValueString (User plan)) = true /\
  EqualFold (row.Dbname r) (types.ValueString (Database plan)) = true /\
  EqualFold (row.Object r) (types.ValueString (Object plan)) = true /\
  EqualFold (row.Operation r) (types.ValueString (Operation plan)) = true /\
  EqualFold (row.OpResult r) (types.ValueString (OpsResult plan)) = true.

(** The scan loop of [Create]: [id] keeps its initial value unless a row
    equals the plan; a failing [rows.Scan] ends the operation. *)
Fixpoint scanRows (rows : list (string + row.auditRuleRow))
    (plan : auditRuleResourceModel) (id : Z) : string + Z :=
  match rows with
  | [] => inr id
  | inl e :: _ => inl e
  | inr r :: rest =>
      if equalsModel r plan then inr (row.Id r) else scanRows rest plan id
  end.

Definition failCreate (diags : diag.Diagnostics) (cause : string) : Response :=
  mkResponse (diag.AddError diags createSummary (createDetail cause)) None.

Definition Create (req : Request) (db : sql.DB Session)
  : Response * sql.DB Session :=
  let plan := GetModel req in
  let diags := diag.Append [] (GetDiags req) in
  if diag.HasError diags then (mkResponse diags None, db) else
  let (err, db) :=
    ExecContext db "CALL mysql.cloudsql_create_audit_rule(?,?,?,?,?,1, @outval,@outmsg);"
      [ sql.ArgString (types.ValueString (User plan));
        sql.ArgString (types.ValueString (Database plan));
        sql.ArgString (types.ValueString (Object plan));
        sql.ArgString (types.ValueString (Operation plan));
        sql.ArgString (types.ValueString (OpsResult plan)) ] in
  match err with
  | Some e => (failCreate diags e, db)
  | None =>
  let (err, db) := auditRuleStoredProcedureResponse db in
  match err with
  | Some e => (failCreate diags e, db)
  | None =>
  let (res, db) :=
    QueryContext db "CALL mysql.cloudsql_list_audit_rule('*',@outval,@outmsg);" [] in
  match res with
  | inl e => (failCreate diags e, db)
  | inr rows =>
  let (err, db) := auditRuleStoredProcedureResponse db in
  match err with
  | Some e => (failCreate diags e, db)
  | None =>
  let id := (-1)%Z in
  match scanRows rows plan id with
  | inl e => (failCreate diags e, db)
  | inr id =>
      if (id =? -1)%Z then (failCreate diags notFoundAfterCreation, db)
      else
        let plan :=
          mkModel (types.Int64Value id) (User plan) (Database plan)
                  (Object plan) (Operation plan) (OpsResult plan) in
        (mkResponse diags (Some plan), db)
  end end end end end.

End Resource.

(** [Read], [Update] and [Delete] of the audit rule. [Read] scans the one
    row of the listing for its id straight into an [auditRuleRow]. *)
Section Lifecycle.

Variable Session : Type.
Variable driverExec : Session -> sql.Stmt -> error * Session.
Variable driverQueryOut :
  Session -> sql.Stmt -> (string + sql.NullInt16 * sql.NullString) * Session.
Variable driverQueryRule :
  Session -> sql.Stmt -> (string + row.auditRuleRow) * Session.

Definition QueryRowContext_ScanRule (db : sql.DB Session) (query : string)
    (args : list sql.Arg) : (string + row.auditRuleRow) * sql.DB Session :=
  let (res, s) := driverQueryRule (sql.session db) (query, args) in
  (res, sql.mkDB s (sql.issued db ++ [(query, args)])).

(** [%d] of an [int64]. *)
Definition formatInt (z : Z) : string := NilZero.string_of_int (Z.to_int z).

Definition fetchDetail (id : Z) (cause : string) : string :=
  "An unexpected error occured while fetching the audit rule with id " +:+
  formatInt id +:+ ", error: " +:+ cause.

Definition Read (req : Request) (db : sql.DB Session)
  : Response * sql.DB Session :=
  let state := GetModel req in
  let diags := diag.Append [] (GetDiags req) in
  if diag.HasError diags then (mkResponse diags None, db) else
  let id := types.ValueInt64 (Id state) in
  let (res, db) :=
    QueryRowContext_ScanRule db
      "CALL mysql.cloudsql_list_audit_rule(?,@outval,@outmsg);"
      [sql.ArgInt64 id] in
  match res with
  | inl e =>
      (mkResponse
         (diag.AddError diags "Unable to read audit rule" (fetchDetail id e))
         None, db)
  | inr r =>
      let (err, db) :=
        auditRuleStoredProcedureResponse Session driverQueryOut db in
      match err with
      | Some e =>
          (mkResponse
             (diag.AddError diags "Unable to update the audit rule"
                (fetchDetail id e)) None, db)
      | None =>
          let state :=
            mkModel (types.Int64Value (row.Id r))
                    (types.StringValue (row.User r))
                    (types.StringValue (row.Dbname r))
                    (types.StringValue (row.Object r))
                    (types.StringValue (row.Operation r))
                    (types.StringValue (row.OpResult r)) in
          (mkResponse diags (Some state), db)
      end
  end.

Definition updateDetail (cause : string) : string :=
  "An unexpected error occured while updating the audit rule: " +:+ cause.

Definition Update (req : Request) (db : sql.DB Session)
  : Response * sql.DB Session :=
  let plan := GetModel req in
  let diags := diag.Append [] (GetDiags req) in
  if diag.HasError diags then (mkResponse diags None, db) else
  let (err, db) :=
    ExecContext Session driverExec db
      "CALL mysql.cloudsql_update_audit_rule(?,?,?,?,?,?,1, @outval,@outmsg);"
      [ sql.ArgInt64 (types.ValueInt64 (Id plan));
        sql.ArgString (types.ValueString (User plan));
        sql.ArgString (types.ValueString (Database plan));
        sql.ArgString (types.ValueString (Object plan));
        sql.ArgString (types.ValueString (Operation plan));
        sql.ArgString (types.ValueString (OpsResult plan)) ] in
  match err with
  | Some e =>
      (mkResponse
         (diag.AddError diags "Unable to update the audit rule" (updateDetail e))
         None, db)
  | None =>
      let (err, db) :=
        auditRuleStoredProcedureResponse Session driverQueryOut db in
      match err with
      | Some e =>
          (mkResponse
             (diag.AddError diags "Unable to update the audit rule"
                (updateDetail e)) None, db)
      | None => (mkResponse diags (Some plan), db)
      end
  end.

Definition deleteDetail (id : Z) (cause : string) : string :=
  "An unexpected error occured while deleting the audit rule with id " +:+
  formatInt id +:+ ", error: " +:+ cause.

Definition Delete (req : Request) (db : sql.DB Session)
  : Response * sql.DB Session :=
  let state := GetModel req in
  let diags := diag.Append [] (GetDiags req) in
  if diag.HasError diags then (mkResponse diags None, db) else
  let id := types.ValueInt64 (Id state) in
  let (err, db) :=
    ExecContext Session driverExec db
      "CALL mysql.cloudsql_delete_audit_rule(?,1,@outval,@outmsg);"
      [sql.ArgInt64 id] in
  match err with
  | Some e =>
      (mkResponse
         (diag.AddError diags "Unable to delete the audit rule" (deleteDetail id e))
         None, db)
  | None =>
      let (err, db) :=
        auditRuleStoredProcedureResponse Session driverQueryOut db in
      match err with
      | Some e =>
          (mkResponse
             (diag.AddError diags "Unable to delete the audit rule"
                (deleteDetail id e)) None, db)
      | None => (mkResponse diags None, db)
      end
  end.

End Lifecycle.

(** A session with a fixed outcome pair and a fixed rule table, for
    running the resource on concrete data. *)
Record cannedSession : Type := mkCanned {
  outval : sql.NullInt16;
  outmsg : sql.NullString;
  rules : list row.auditRuleRow
}.

Definition cannedExec (s : cannedSession) (_ : sql.Stmt) : error * cannedSession :=
  (None, s).

Definition cannedQueryOut (s : cannedSession) (_ : sql.Stmt)
  : (string + sql.NullInt16 * sql.NullString) * cannedSession :=
  (inr (outval s, outmsg s), s).

Definition cannedQuery (s : cannedSession) (_ : sql.Stmt)
  : (string + list (string + row.auditRuleRow)) * cannedSession :=
  (inr (map inr (rules s)), s).

End audit.

(** ** The role resource ([resource_role.go]) *)

Module role.

Record roleResourceModel : Type := mkModel { Name : types.String }.

Record Request : Type := mkRequest {
  GetDiags : diag.Diagnostics;
  GetModel : roleResourceModel
}.

Record Response : Type := mkResponse {
  Diagnostics : diag.Diagnostics;
  State : option roleResourceModel
}.

(** The statements of the role resource for a model. *)
Definition createRoleStmt (m : roleResourceModel) : sql.Stmt :=
  ("CREATE ROLE '" +:+ types.ValueString (Name m) +:+ "'", []).

Definition showGrantsStmt (m : roleResourceModel) : sql.Stmt :=
  ("SHOW GRANTS FOR '" +:+ types.ValueString (Name m) +:+ "'", []).

Definition dropRoleStmt (m : roleResourceModel) : sql.Stmt :=
  ("DROP ROLE '" +:+ types.ValueString (Name m) +:+ "'", []).

Section Resource.

(** The session: a statement executed for its effect, and the listing of
    [SHOW GRANTS], of which [Read] only asks [rows.Next] once. *)
Variable Session : Type.
Variable driverExec : Session -> sql.Stmt -> error * Session.
Variable driverQuery : Session -> sql.Stmt -> (string + list string) * Session.

Definition ExecContext (db : sql.DB Session) (query : string) (args : list sql.Arg)
  : error * sql.DB Session :=
  let (err, s) := driverExec (sql.session db) (query, args) in
  (err, sql.mkDB s (sql.issued db ++ [(query, args)])).

Definition QueryContext (db : sql.DB Session) (query : string)
    (args : list sql.Arg) : (string + list string) * sql.DB Session :=
  let (res, s) := driverQuery (sql.session db) (query, args) in
  (res, sql.mkDB s (sql.issued db ++ [(query, args)])).

(** [rows.Next()] on a fresh result. *)
Definition Next (rows : list string) : bool :=
  match rows with [] => false | _ :: _ => true end.

Definition Create (req : Request) (db : sql.DB Session)
  : Response * sql.DB Session :=
  let plan := GetModel req in
  let diags := diag.Append [] (GetDiags req) in
  if diag.HasError diags then (mkResponse diags None, db) else
  let roleName := types.ValueString (Name plan) in
  let (err, db) := ExecContext db ("CREATE ROLE '" +:+ roleName +:+ "'") [] in
  match err with
  | Some e =>
      (mkResponse
         (diag.AddError diags "Error creating role"
            ("Could not create role '" +:+ roleName +:+
             "', unexpected error: " +:+ e)) None, db)
  | None => (mkResponse diags (Some plan), db)
  end.

Definition Read (req : Request) (db : sql.DB Session)
  : Response * sql.DB Session :=
  let state := GetModel req in
  let diags := diag.Append [] (GetDiags req) in
  if diag.HasError diags then (mkResponse diags None, db) else
  let role := types.ValueString (Name state) in
  let (res, db) := QueryContext db ("SHOW GRANTS FOR '" +:+ role +:+ "'") [] in
  match res with
  | inl e =>
      (mkResponse
         (diag.AddError diags "Error reading role"
            ("Could not read role " +:+ role +:+ ", unexpected error: " +:+ e))
         None, db)
  | inr rows =>
      if negb (Next rows) then
        (mkResponse
           (diag.AddError diags "Role not found" ("Could not read role " +:+ role))
           None, db)
      else (mkResponse diags (Some state), db)
  end.

Definition Delete (req : Request) (db : sql.DB Session)
  : Response * sql.DB Session :=
  let state := GetModel req in
  let diags := diag.Append [] (GetDiags req) in
  if diag.HasError diags then (mkResponse diags None, db) else
  let roleName := types.ValueString (Name state) in
  let (err, db) := ExecContext db ("DROP ROLE '" +:+ roleName +:+ "'") [] in
  match err with
  | Some e =>
      (mkResponse
         (diag.AddError diags "Error deleting role"
            ("Could not delete role " +:+ roleName +:+
             ", unexpected error: " +:+ e)) None, db)
  | None => (mkResponse diags None, db)
  end.

End Resource.

End role.

(** ** The database data source ([data_source_database.go]) *)

Module datasource.

Record databaseDataSourceModel : Type := mkModel {
  Name : types.String;
  DefaultCharacterSet : types.String;
  DefaultCollation : types.String
}.

Record Request : Type := mkRequest {
  GetDiags : diag.Diagnostics;
  GetModel : databaseDataSourceModel
}.

Record Response : Type := mkResponse {
  Diagnostics : diag.Diagnostics;
  State : option databaseDataSourceModel
}.

(** The error of [row.Scan]: the sentinel [sql.ErrNoRows], which [Read]
    recognises by identity, or any other error. *)
Inductive ScanError : Type :=
| ErrNoRows
| ErrOther (msg : string).

Definition Error (e : ScanError) : string :=
  match e with ErrNoRows => sql.ErrNoRows | ErrOther msg => msg end.

Definition schemataQuery : string :=
  "SELECT SCHEMA_NAME, DEFAULT_CHARACTER_SET_NAME, DEFAULT_COLLATION_NAME " +:+
  "FROM INFORMATION_SCHEMA.SCHEMATA WHERE SCHEMA_NAME = ?".

Definition schemataStmt (m : databaseDataSourceModel) : sql.Stmt :=
  (schemataQuery, [sql.ArgString (types.ValueString (Name m))]).

Section DataSource.

Variable Session : Type.
Variable driverQueryRow :
  Session -> sql.Stmt -> (ScanError + string * string * string) * Session.

Definition QueryRowContext_Scan (db : sql.DB Session) (query : string)
    (args : list sql.Arg)
  : (ScanError + string * string * string) * sql.DB Session :=
  let (res, s) := driverQueryRow (sql.session db) (query, args) in
  (res, sql.mkDB s (sql.issued db ++ [(query, args)])).

(** [Read] appends the diagnostics of [req.Config.Get] and goes on without
    looking at them. *)
Definition Read (req : Request) (db : sql.DB Session)
  : Response * sql.DB Session :=
  let state := GetModel req in
  let diags := diag.Append [] (GetDiags req) in
  let database := types.ValueString (Name state) in
  let (res, db) :=
    QueryRowContext_Scan db schemataQuery [sql.ArgString database] in
  match res with
  | inl err =>
      match err with
      | ErrNoRows =>
          (mkResponse
             (diag.AddError diags "Database not found"
                ("Database '" +:+ database +:+ "' not found")) None, db)
      | _ =>
          (mkResponse
             (diag.AddError diags "Error reading the the database information"
                ("Could not read the database information of '" +:+ database +:+
                 "', unexpected error: " +:+ Error err)) None, db)
      end
  | inr (name, defaultCharacterSet, defaultCollation) =>
      let state :=
        mkModel (types.StringValue name)
                (types.StringValue defaultCharacterSet)
                (types.StringValue defaultCollation) in
      (mkResponse diags (Some state), db)
  end.

End DataSource.

End datasource.

(** ** The connection registry ([config.go]) *)

Module config.

(** A [*sql.DB]: the address of the pooled handle. *)
Definition Handle : Type := positive.

(** [dbRegistry] holds the handles opened so far; a key without an entry
    reads as [nil]. [sql.Open] returns a handle or an error, never both
    [nil]. *)
Record Config : Type := mkConfig {
  dsnTemplate : string;
  dbRegistry : gmap string Handle
}.

Definition newConfig (dsnTemplate : string) : Config :=
  mkConfig dsnTemplate ∅.

(** The driver side of [sql.Open], and the calls made to it so far. *)
Record Driver (World : Type) : Type := mkDriver {
  world : World;
  opened : list (string * string)
}.
Arguments mkDriver {World}.
Arguments world {World}.
Arguments opened {World}.

Section Registry.

Variable World : Type.
Variable driverOpen : World -> string -> string -> (string + Handle) * World.

Definition sql_Open (d : Driver World) (driverName dataSourceName : string)
  : (string + Handle) * Driver World :=
  let (res, w) := driverOpen (world d) driverName dataSourceName in
  (res, mkDriver w (opened d ++ [(driverName, dataSourceName)])).

(** [connectToMySQL], inside its critical section; the result is the
    pair of the returned pointer ([None] for [nil]) and the error. *)
Definition connectToMySQL (c : Config) (d : Driver World) (dsn : string)
  : (option Handle * error) * Config * Driver World :=
  match dbRegistry c !! dsn with
  | Some _ => ((dbRegistry c !! dsn, None), c, d)
  | None =>
      let (res, d) := sql_Open d "cloudsql-mysql" dsn in
      match res with
      | inl err => ((None, Some err), c, d)
      | inr db =>
          let c := mkConfig (dsnTemplate c) (<[dsn := db]> (dbRegistry c)) in
          ((dbRegistry c !! dsn, None), c, d)
      end
  end.

End Registry.

(** A run of calls, one after the other, each on the registry and driver
    the previous one left. *)
Section Runs.

Variable World : Type.
Variable driverOpen : World -> string -> string -> (string + Handle) * World.

Fixpoint connectAll (c : Config) (d : Driver World) (dsns : list string)
  : Config * Driver World :=
  match dsns with
  | [] => (c, d)
  | dsn :: rest =>
      let '(_, c, d) := connectToMySQL World driverOpen c d dsn in
      connectAll c d rest
  end.

End Runs.

(** [connectToMySQLDb]: the data source name is the template formatted
    with the database name. [fmt.Sprintf] is Go's. *)
Section Template.

Variable World : Type.
Variable driverOpen : World -> string -> string -> (string + Handle) * World.
Variable fmt_Sprintf : string -> string -> string.

Definition connectToMySQLDb (c : Config) (d : Driver World) (dbName : string)
  : (option Handle * error) * Config * Driver World :=
  let dsn := fmt_Sprintf (dsnTemplate c) dbName in
  connectToMySQL World driverOpen c d dsn.

End Template.

End config.

(** ** [Configure] of the audit rule resource and of the data source

    Both take the provider data, expect the [*Config] in it and ask the
    registry for the connection without a database name. The [*Config] is
    one shared object: it is threaded through the calls. *)

Module configure.

(** [req.ProviderData]: nil, the provider's [*Config], or a value of
    another type, of which [%T] prints the name. *)
Inductive ProviderData : Type :=
| NoData
| ConfigData
| OtherData (typeName : string).

Section Configure.

Variable World : Type.
Variable driverOpen : World -> string -> string -> (string + config.Handle) * World.
Variable fmt_Sprintf : string -> string -> string.

(** The resource's [db] field before and after, the diagnostics, and the
    registry and driver as the call leaves them. *)
Definition Configure (db : option config.Handle) (data : ProviderData)
    (c : config.Config) (d : config.Driver World)
  : diag.Diagnostics * option config.Handle * config.Config * config.Driver World :=
  match data with
  | NoData => ([], db, c, d)
  | OtherData typeName =>
      (diag.AddError [] "Unexpected Data Source Configure Type"
         ("Expected *Config, got: " +:+ typeName +:+
          ". Please report this issue to the provider developers."),
       db, c, d)
  | ConfigData =>
      let '((h, err), c, d) :=
        config.connectToMySQLDb World driverOpen fmt_Sprintf c d "" in
      match err with
      | Some e =>
          (diag.AddError [] "Unable to connect to the Cloud SQL MySQL instance" e,
           db, c, d)
      | None => ([], h, c, d)
      end
  end.

End Configure.

End configure.

(** ** The provider's [Configure] *)

Module provider.

Record CloudSqlMysqlProviderModel : Type := mkModel {
  ConnectionName : types.String;
  Username : types.String;
  Password : types.String;
  Proxy : types.String;
  PrivateIP : types.Bool;
  PSC : types.Bool
}.

Definition IsUnknown (v : types.String) : bool :=
  match v with types.StringUnknown => true | _ => false end.

Inductive DialOption : Type := WithPrivateIP | WithPSC.

Inductive Option_ : Type :=
| WithDefaultDialOptions (opts : list DialOption)
| WithDialFunc (proxyInput : string).

(** A diagnostic with the attribute path it is attached to, if any. *)
Definition Diagnostics : Type := list (option string * diag.Diagnostic).

Definition HasError (ds : Diagnostics) : bool :=
  existsb (fun d => diag.isError (snd d)) ds.

Definition AddAttributeError (ds : Diagnostics) (path summ det : string)
  : Diagnostics :=
  ds ++ [(Some path, diag.mkDiagnostic diag.SeverityError summ det)].

Definition AddError (ds : Diagnostics) (summ det : string) : Diagnostics :=
  ds ++ [(None, diag.mkDiagnostic diag.SeverityError summ det)].

(** [if cond { resp.Diagnostics.AddAttributeError(path, summ, det) }] *)
Definition addAttributeErrorIf (cond : bool) (ds : Diagnostics)
    (path summ det : string) : Diagnostics :=
  if cond then AddAttributeError ds path summ det else ds.

(** What [Configure] is given: the decoded configuration with the
    diagnostics of decoding it, the environment, and the outcome of
    [mysql.RegisterDriver] for the options it is called with. *)
Record Request : Type := mkRequest {
  GetDiags : Diagnostics;
  GetModel : CloudSqlMysqlProviderModel;
  Getenv : string -> string;
  RegisterDriver : string -> list Option_ -> error
}.

(** What [Configure] leaves: its diagnostics, the driver registration it
    made, and the [*Config] handed to resources and data sources. *)
Record Response : Type := mkResponse {
  Diagnostics_ : Diagnostics;
  Registered : option (string * list Option_);
  ResourceData : option config.Config;
  DataSourceData : option config.Config
}.

(** The details of the diagnostics of [Configure]. *)
Definition missingConnectionNameDetail : string :=
  "The provider cannot create the Cloud SQL MySQL connection as there is a missing or empty value for the Cloud SQL MySQL connection name. " +:+
  "Set the connection name value in the configuration or use the CLOUDSQL_MYSQL_CONNECTION_NAME environment variable. ".

Definition missingUsernameDetail : string :=
  "The provider cannot create the Cloud SQL MySQL connection as there is a missing or empty value for the Cloud SQL MySQL username. " +:+
  "Set the username value in the configuration or use the CLOUDSQL_MYSQL_USERNAME environment variable.".

Definition missingPasswordDetail : string :=
  "The provider cannot create the Cloud SQL MySQL connection as there is a missing or empty value for the Cloud SQL MySQL password. " +:+
  "Set the password value in the configuration or use the CLOUDSQL_MYSQL_PASSWORD environment variable.".

Definition registerDriverDetail (e : string) : string :=
  "An unexpected error occured when creating the Cloud SQL connection." +:+
  String "010" (String "010" "Error: ") +:+ e.

Definition unknownDetail (attr : string) : string :=
  "The provider cannot create the Cloud SQL Mysql client as there is an unknown configuration value for the `" +:+ attr +:+ "`".

(** The value [Configure] settles on for a setting: the configured one
    unless it is null, else the environment's. *)
Definition resolve (v : types.String) (env : string) : string :=
  if negb (types.IsNull v) then types.ValueString v else env.

Definition connectionNameOf (req : Request) : string :=
  resolve (ConnectionName (GetModel req))
          (Getenv req "CLOUDSQL_MYSQL_CONNECTION_NAME").

Definition usernameOf (req : Request) : string :=
  resolve (Username (GetModel req)) (Getenv req "CLOUDSQL_MYSQL_USERNAME").

Definition passwordOf (req : Request) : string :=
  resolve (Password (GetModel req)) (Getenv req "CLOUDSQL_MYSQL_PASSWORD").

(** The data source name for a database, as the template is meant to
    expand. *)
Definition dataSourceName (username password connectionName dbName : string)
  : string :=
  username +:+ ":" +:+ password +:+ "@cloudsql-mysql(" +:+ connectionName +:+
  ")/" +:+ dbName +:+ "?parseTime=true".

Definition Configure (req : Request) : Response :=
  let config := GetModel req in
  let diags := [] ++ GetDiags req in
  if HasError diags then mkResponse diags None None None else
  let diags :=
    addAttributeErrorIf (IsUnknown (ConnectionName config)) diags "connection_name"
        "Unknown Cloud SQL MySQL connection name" (unknownDetail "connection_name") in
  let diags :=
    addAttributeErrorIf (IsUnknown (Username config)) diags "username"
        "Unknown Cloud SQL MySQL username" (unknownDetail "username") in
  let diags :=
    addAttributeErrorIf (IsUnknown (Password config)) diags "password"
        "Unknown Cloud SQL MySQL username" (unknownDetail "password") in
  if HasError diags then mkResponse diags None None None else
  let connectionName := Getenv req "CLOUDSQL_MYSQL_CONNECTION_NAME" in
  let username := Getenv req "CLOUDSQL_MYSQL_USERNAME" in
  let password := Getenv req "CLOUDSQL_MYSQL_PASSWORD" in
  let connectionName :=
    if negb (types.IsNull (ConnectionName config))
    then types.ValueString (ConnectionName config) else connectionName in
  let username :=
    if negb (types.IsNull (Username config))
    then types.ValueString (Username config) else username in
  let password :=
    if negb (types.IsNull (Password config))
    then types.ValueString (Password config) else password in
  let diags :=
    addAttributeErrorIf (String.eqb connectionName "") diags "connection_name"
        "Missing Cloud SQL MySQL connection name"
        missingConnectionNameDetail in
  let diags :=
    addAttributeErrorIf (String.eqb username "") diags "username"
        "Missing Cloud SQL MySQL username"
        missingUsernameDetail in
  let diags :=
    addAttributeErrorIf (String.eqb password "") diags "password"
        "Missing Cloud SQL MySQL password"
        missingPasswordDetail in
  if HasError diags then mkResponse diags None None None else
  let dialOptions := [] in
  let dialOptions :=
    if types.ValueBool (PrivateIP config) then dialOptions ++ [WithPrivateIP]
    else dialOptions in
  let dialOptions :=
    if types.ValueBool (PSC config) then dialOptions ++ [WithPSC]
    else dialOptions in
  let options := [] in
  let options := options ++ [WithDefaultDialOptions dialOptions] in
  let options :=
    if negb (types.IsNull (Proxy config))
    then options ++ [WithDialFunc (types.ValueString (Proxy config))]
    else options in
  let err := RegisterDriver req "cloudsql-mysql" options in
  let diags :=
    match err with
    | Some e =>
        AddError diags "Unable to create Cloud SQL MySQL connection"
          (registerDriverDetail e)
    | None => diags
    end in
  let dataSourceNameTemplate :=
    username +:+ ":" +:+ password +:+ "@cloudsql-mysql(" +:+ connectionName +:+
    ")/%s?parseTime=true" in
  let dbConfig := config.newConfig dataSourceNameTemplate in
  mkResponse diags (Some ("cloudsql-mysql", options)) (Some dbConfig) (Some dbConfig).

End provider.

(** ** Concrete sessions and data, for running the embedding *)

(** A driver that hands out fresh addresses, and one that never opens. *)
Definition freshOpen (next : positive) (_ _ : string)
  : (string + config.Handle) * positive :=
  (inr next, Pos.succ next).

Definition failingOpen (w : unit) (_ _ : string)
  : (string + config.Handle) * unit :=
  (inl "dial tcp: connection refused", w).

Definition exampleDsn : string := "root:password@cloudsql-mysql(project:region:instance)/?parseTime=true".

Definition bothSetModel : grant.databaseGrantResourceModel :=
  grant.mkModel (types.StringValue "app") (types.StringValue "alice")
    (types.StringValue "readers") (types.StringValue "%")
    [types.StringValue "SELECT"] (types.BoolValue false).

Definition examplePlan : audit.auditRuleResourceModel :=
  audit.mkModel types.Int64Unknown (types.StringValue "alice")
    (types.StringValue "app") (types.StringValue "orders")
    (types.StringValue "select") (types.StringValue "B").

Definition exampleRequest : audit.Request := audit.mkRequest [] examplePlan.

Definition otherRule : audit.row.auditRuleRow :=
  audit.row.mkRow 3 "bob" "app" "orders" "select" "B".

Definition matchingRule (id : Z) : audit.row.auditRuleRow :=
  audit.row.mkRow id "ALICE" "app" "Orders" "SELECT" "b".

Definition cannedDB (status : Z) (message : string)
    (rules : list audit.row.auditRuleRow) : sql.DB audit.cannedSession :=
  sql.open (audit.mkCanned (sql.mkNullInt16 status true)
                           (sql.mkNullString message true) rules).

Definition cannedConfirm :=
  audit.auditRuleStoredProcedureResponse audit.cannedSession audit.cannedQueryOut.

Definition cannedCreate :=
  audit.Create asciiEqualFold audit.cannedSession audit.cannedExec
    audit.cannedQueryOut audit.cannedQuery.

(** A session that accepts every statement and answers the privilege
    query from an optional [mysql.db] row. *)
Record cannedGrants : Type := mkCannedGrants { privRow : option dbRow }.

Definition cannedGrantExec (s : cannedGrants) (_ : sql.Stmt)
  : error * cannedGrants :=
  (None, s).

Definition cannedGrantQueryRow (s : cannedGrants) (_ : sql.Stmt)
  : (string + dbRow) * cannedGrants :=
  match privRow s with
  | Some r => (inr r, s)
  | None => (inl sql.ErrNoRows, s)
  end.

Definition cannedRead :=
  grant.Read asciiEqualFold cannedGrants cannedGrantQueryRow.

Definition cannedGrantCreate := grant.Create cannedGrants cannedGrantExec.

Definition cannedValidatedCreate :=
  grant.validatedCreate cannedGrants cannedGrantExec.

Definition aliceState : grant.databaseGrantResourceModel :=
  grant.mkModel (types.StringValue "app") (types.StringValue "alice")
    types.StringNull (types.StringValue "%")
    [types.StringValue "select"; types.StringValue "Insert"]
    (types.BoolValue false).

Definition neitherSetModel : grant.databaseGrantResourceModel :=
  grant.mkModel (types.StringValue "app") types.StringNull types.StringNull
    (types.StringValue "%") [types.StringValue "SELECT"] (types.BoolValue false).

(** A rule session answers the query for one rule with the first rule of
    its table. *)
Definition cannedQueryRule (s : audit.cannedSession) (_ : sql.Stmt)
  : (string + audit.row.auditRuleRow) * audit.cannedSession :=
  match audit.rules s with
  | r :: _ => (inr r, s)
  | [] => (inl sql.ErrNoRows, s)
  end.

Definition cannedAuditRead :=
  audit.Read audit.cannedSession audit.cannedQueryOut cannedQueryRule.

(** A session that lists fixed grants for every role. *)
Definition cannedRoleExec (s : list string) (_ : sql.Stmt)
  : error * list string :=
  (None, s).

Definition cannedRoleQuery (s : list string) (_ : sql.Stmt)
  : (string + list string) * list string :=
  (inr s, s).

Definition adminRole : role.roleResourceModel :=
  role.mkModel (types.StringValue "admin").

(** A session whose SCHEMATA holds at most one schema. *)
Definition cannedSchemata (s : option (string * string * string))
    (_ : sql.Stmt)
  : (datasource.ScanError + string * string * string)
    * option (string * string * string) :=
  match s with
  | Some r => (inr r, s)
  | None => (inl datasource.ErrNoRows, s)
  end.

Definition appDatabase : datasource.databaseDataSourceModel :=
  datasource.mkModel (types.StringValue "app") types.StringNull types.StringNull.

(** A driver whose first [sql.Open] fails and whose later ones succeed. *)
Definition flakyOpen (tried : bool) (_ _ : string)
  : (string + config.Handle) * bool :=
  if tried then (inr 1%positive, true)
  else (inl "dial tcp: connection refused", true).

(** A provider block with the three settings, in an empty environment. *)
Definition exampleProviderRequest : provider.Request :=
  provider.mkRequest []
    (provider.mkModel (types.StringValue "project:region:instance")
       (types.StringValue "root") (types.StringValue "password")
       types.StringNull types.BoolNull types.BoolNull)
    (fun _ => "") (fun _ _ => None).

(** The same block with the password left to the environment and a driver
    registration that fails. *)
Definition envProviderRequest : provider.Request :=
  provider.mkRequest []
    (provider.mkModel (types.StringValue "project:region:instance")
       (types.StringValue "root") types.StringNull
       types.StringNull types.BoolNull types.BoolNull)
    (fun name => if String.eqb name "CLOUDSQL_MYSQL_PASSWORD" then "secret" else "")
    (fun _ _ => Some "sql: Register called twice for driver cloudsql-mysql").


(** * Properties *)

(** ** [strings.EqualFold] on ASCII text is an equivalence *)

Lemma byteFoldEq_lower (a b : ascii) :
  byteFoldEq a b = (lowerByte (N_of_ascii a) =? lowerByte (N_of_ascii b))%N.
Proof.
  unfold byteFoldEq, lowerByte.
  set (x := N_of_ascii a). set (y := N_of_ascii b).
  destruct (N.eqb_spec y x) as [->|Hne].
  - now rewrite N.eqb_refl.
  - destruct (N.ltb_spec y x);
      repeat match goal with
             | |- context [N.leb ?p ?q] => destruct (N.leb_spec p q)
             | |- context [N.eqb ?p ?q] => destruct (N.eqb_spec p q)
             end; simpl in *; try reflexivity; lia.
Qed.

Lemma asciiEqualFold_refl (s : string) : asciiEqualFold s s = true.
Proof.
  induction s as [|a s IH]; simpl; [reflexivity|].
  now rewrite byteFoldEq_lower, N.eqb_refl.
Qed.

Lemma asciiEqualFold_sym (s t : string) :
  asciiEqualFold s t = asciiEqualFold t s.
Proof.
  revert t; induction s as [|a s IH]; intros [|b t]; simpl; try reflexivity.
  rewrite !byteFoldEq_lower, (N.eqb_sym (lowerByte (N_of_ascii a))), IH.
  reflexivity.
Qed.

Lemma asciiEqualFold_trans (s t u : string) :
  asciiEqualFold s t = true -> asciiEqualFold t u = true ->
  asciiEqualFold s u = true.
Proof.
  revert t u; induction s as [|a s IH]; intros [|b t] [|c u]; simpl;
    try congruence.
  rewrite !byteFoldEq_lower.
  destruct (N.eqb_spec (lowerByte (N_of_ascii a)) (lowerByte (N_of_ascii b)))
    as [->|]; [|congruence].
  destruct (N.eqb_spec (lowerByte (N_of_ascii b)) (lowerByte (N_of_ascii c)));
    [|congruence].
  eauto.
Qed.

(** ** Diagnostics *)

Lemma HasError_AddError (ds : diag.Diagnostics) (summ det : string) :
  diag.HasError (diag.AddError ds summ det) = true.
Proof.
  unfold diag.HasError, diag.AddError. rewrite existsb_app. cbn.
  apply orb_true_r.
Qed.

Lemma HasError_snoc_error (ds : diag.Diagnostics) (summ det : string) :
  diag.HasError (ds ++ [diag.mkDiagnostic diag.SeverityError summ det]) = true.
Proof. apply HasError_AddError. Qed.

(** ** Privilege codec *)

Lemma appendIf_app (c : bool) (l : list string) (x : string) :
  appendIf c l x = l ++ (if c then [x] else []).
Proof. destruct c; simpl; [reflexivity | now rewrite app_nil_r]. Qed.

Lemma map_snd_filter_cons {A B} (f : A * B -> bool) (e : A * B) (l : list (A * B)) :
  map snd (List.filter f (e :: l)) =
  (if f e then [snd e] else []) ++ map snd (List.filter f l).
Proof. simpl. destruct (f e); reflexivity. Qed.

Lemma allPrivileges_table (r : dbRow) :
  allPrivileges r =
  map snd (List.filter (fun e => String.eqb (fst e r) "Y") privilegeCatalog).
Proof.
  unfold allPrivileges, privilegeCatalog.
  rewrite !appendIf_app, !map_snd_filter_cons.
  cbn [List.filter map fst snd app].
  rewrite <- !app_assoc, app_nil_r. reflexivity.
Qed.

(** C7 (as stated, refuted): the catalog that [allPrivileges] applies does
    not have 17 names. A row with every flag set decodes to 18 pairwise
    different names. *)
Lemma allPrivileges_catalog_not_17 :
  length (allPrivileges allYesRow) = 18%nat /\
  List.NoDup (allPrivileges allYesRow) /\
  length privilegeCatalog <> 17%nat.
Proof.
  split; [reflexivity|]. split; [|discriminate].
  vm_compute.
  repeat (constructor; [simpl; intuition discriminate|]). constructor.
Qed.

(** C7 (amended): the catalog has exactly 18 pairwise different names, and
    [allPrivileges] applies it in its order: the decoded sequence is the
    catalog's keywords restricted to the entries whose flag column equals
    ["Y"], so a keyword is decoded if and only if its flag is ["Y"]. *)
Theorem allPrivileges_catalog_18 :
  length privilegeCatalog = 18%nat /\
  List.NoDup catalogNames /\
  (forall r : dbRow,
     allPrivileges r =
     map snd (List.filter (fun e => String.eqb (fst e r) "Y") privilegeCatalog)) /\
  (forall (r : dbRow) (name : string),
     In name (allPrivileges r) <->
     exists flag, In (flag, name) privilegeCatalog /\ flag r = "Y").
Proof.
  split; [reflexivity|]. split.
  { vm_compute.
    repeat (constructor; [simpl; intuition discriminate|]). constructor. }
  split; [exact allPrivileges_table|].
  intros r name. rewrite allPrivileges_table, in_map_iff. split.
  - intros [[flag n] [Hn Hin]]. simpl in Hn. subst n.
    apply filter_In in Hin. destruct Hin as [Hin Hy]. simpl in Hy.
    exists flag. split; [exact Hin|]. now apply String.eqb_eq.
  - intros [flag [Hin Hy]]. exists (flag, name). split; [reflexivity|].
    apply filter_In. split; [exact Hin|]. simpl. now apply String.eqb_eq.
Qed.

(** ** [userOrRole] *)

(** C10: [userOrRole] returns an error exactly when user and role are both
    null; with a non-null user it returns the user's value and no error,
    whatever the role is, so a model with both set is not rejected here. *)
Theorem userOrRole_user_precedence (m : grant.databaseGrantResourceModel) :
  (snd (grant.userOrRole m) <> None <->
   types.IsNull (grant.User m) = true /\ types.IsNull (grant.Role m) = true) /\
  (types.IsNull (grant.User m) = false ->
   grant.userOrRole m = (types.ValueString (grant.User m), None)) /\
  (types.IsNull (grant.User m) = true -> types.IsNull (grant.Role m) = false ->
   grant.userOrRole m = (types.ValueString (grant.Role m), None)).
Proof.
  unfold grant.userOrRole, errors_New.
  destruct (types.IsNull (grant.User m)), (types.IsNull (grant.Role m));
    simpl; intuition congruence.
Qed.

Lemma userOrRole_user_precedence_witness :
  grant.userOrRole bothSetModel = ("alice", None).
Proof.
  exact (proj1 (proj2 (userOrRole_user_precedence bothSetModel)) eq_refl).
Defined.

(** ** Connection registry *)

Section RegistryProperties.

Variable World : Type.
Variable driverOpen : World -> string -> string -> (string + config.Handle) * World.

Abbreviation connect := (config.connectToMySQL World driverOpen).

Lemma connect_cached (c : config.Config) (d : config.Driver World)
    (dsn : string) (h : config.Handle) :
  config.dbRegistry c !! dsn = Some h ->
  connect c d dsn = ((Some h, None), c, d).
Proof.
  intros Hh. unfold config.connectToMySQL. now rewrite Hh.
Qed.

(** C8: when a call for [dsn] returns a handle, the next call for the same
    [dsn] returns that very handle, leaves the registry as it is and makes
    no call to [sql.Open]; when a call fails, the registry is the one it
    started with (and holds no entry for [dsn]). *)
Theorem connectToMySQL_idempotent (c : config.Config)
    (d : config.Driver World) (dsn : string) :
  (forall h c' d',
     connect c d dsn = ((Some h, None), c', d') ->
     connect c' d' dsn = ((Some h, None), c', d')) /\
  (forall p e c' d',
     connect c d dsn = ((p, Some e), c', d') ->
     p = None /\ c' = c /\ config.dbRegistry c' !! dsn = None).
Proof.
  unfold config.connectToMySQL at 1 3.
  destruct (config.dbRegistry c !! dsn) as [h0|] eqn:Hlook.
  - split.
    + intros h c' d' Heq. injection Heq as <- <- <-.
      now apply connect_cached.
    + intros p e c' d' Heq. discriminate.
  - unfold config.sql_Open.
    destruct (driverOpen (config.world d) "cloudsql-mysql" dsn) as [[err|db] w].
    + split.
      * intros h c' d' Heq. discriminate.
      * intros p e c' d' Heq. injection Heq as <- _ <- _. auto.
    + cbn [config.dbRegistry]. rewrite lookup_insert_eq. split.
      * intros h c' d' Heq. injection Heq as <- <- <-.
        apply connect_cached. cbn [config.dbRegistry].
        apply lookup_insert_eq.
      * intros p e c' d' Heq. discriminate.
Qed.

End RegistryProperties.

Lemma connectToMySQL_idempotent_witness :
  (let c' := config.mkConfig "%s" (<[exampleDsn := 1%positive]> ∅) in
   let d' := config.mkDriver 2%positive [("cloudsql-mysql", exampleDsn)] in
   config.connectToMySQL positive freshOpen c' d' exampleDsn
   = ((Some 1%positive, None), c', d')) /\
  (let c := config.newConfig "%s" in
   let d' := config.mkDriver tt [("cloudsql-mysql", exampleDsn)] in
   (None : option config.Handle) = None /\ c = c /\
   config.dbRegistry c !! exampleDsn = None).
Proof.
  split.
  - exact (proj1 (connectToMySQL_idempotent positive freshOpen
                    (config.newConfig "%s") (config.mkDriver 1%positive [])
                    exampleDsn) _ _ _ eq_refl).
  - exact (proj2 (connectToMySQL_idempotent unit failingOpen
                    (config.newConfig "%s") (config.mkDriver tt [])
                    exampleDsn) None "dial tcp: connection refused" _
                 (config.mkDriver tt [("cloudsql-mysql", exampleDsn)]) eq_refl).
Defined.

(** ** Audit rule protocol *)

Section AuditProperties.

Variable EqualFold : string -> string -> bool.
Variable Session : Type.
Variable driverExec : Session -> sql.Stmt -> error * Session.
Variable driverQueryOut :
  Session -> sql.Stmt -> (string + sql.NullInt16 * sql.NullString) * Session.
Variable driverQuery :
  Session -> sql.Stmt -> (string + list (string + audit.row.auditRuleRow)) * Session.

Abbreviation confirm := (audit.auditRuleStoredProcedureResponse Session driverQueryOut).
Abbreviation equalsModel := (audit.equalsModel EqualFold).
Abbreviation scanRows := (audit.scanRows EqualFold).
Abbreviation fieldsMatch := (audit.fieldsMatch EqualFold).
Abbreviation auditCreate :=
  (audit.Create EqualFold Session driverExec driverQueryOut driverQuery).

Lemma equalsModel_fieldsMatch (r : audit.row.auditRuleRow)
    (plan : audit.auditRuleResourceModel) :
  equalsModel r plan = true <-> fieldsMatch r plan.
Proof.
  unfold audit.equalsModel, audit.fieldsMatch.
  repeat match goal with
         | |- context [EqualFold ?a ?b] => destruct (EqualFold a b)
         end; simpl; intuition congruence.
Qed.

Lemma confirm_scanned (db : sql.DB Session) (outval : sql.NullInt16)
    (outmsg : sql.NullString) (s' : Session) :
  driverQueryOut (sql.session db) audit.confirmStmt = (inr (outval, outmsg), s') ->
  confirm db =
  (if (0 <? sql.Int16 outval)%Z then Some (sql.String_ outmsg) else None,
   sql.mkDB s' (sql.issued db ++ [audit.confirmStmt])).
Proof.
  intros Hq. unfold audit.auditRuleStoredProcedureResponse,
    audit.QueryRowContext_Scan. fold audit.confirmStmt. rewrite Hq.
  unfold errors_New. now destruct (0 <? sql.Int16 outval)%Z.
Qed.

(** C5 (amended): once the follow-up SELECT has delivered the pair
    (status, message), the confirm step fails if and only if the status is
    greater than zero, and the failure then carries the session message; a
    status of zero, like a negative or NULL status, proceeds as a
    success. *)
Theorem confirm_fails_iff_positive (db : sql.DB Session)
    (outval : sql.NullInt16) (outmsg : sql.NullString) (s' : Session) :
  driverQueryOut (sql.session db) audit.confirmStmt = (inr (outval, outmsg), s') ->
  (fst (confirm db) <> None <-> (0 < sql.Int16 outval)%Z) /\
  ((0 < sql.Int16 outval)%Z -> fst (confirm db) = Some (sql.String_ outmsg)) /\
  ((sql.Int16 outval <= 0)%Z -> fst (confirm db) = None).
Proof.
  clear EqualFold driverExec driverQuery.
  intros Hq. rewrite (confirm_scanned _ _ _ _ Hq). simpl.
  destruct (Z.ltb_spec 0 (sql.Int16 outval)); intuition (congruence || lia).
Qed.

Lemma scanRows_no_match (rows : list audit.row.auditRuleRow)
    (plan : audit.auditRuleResourceModel) (id : Z) :
  (forall r, In r rows -> equalsModel r plan = false) ->
  scanRows (map inr rows) plan id = inr id.
Proof.
  induction rows as [|r rows IH]; intros Hno; simpl; [reflexivity|].
  rewrite (Hno r (or_introl eq_refl)). apply IH.
  intros r' Hin. apply Hno. now right.
Qed.

Lemma scanRows_first_match (pre post : list audit.row.auditRuleRow)
    (r : audit.row.auditRuleRow) (plan : audit.auditRuleResourceModel) (id : Z) :
  (forall r', In r' pre -> equalsModel r' plan = false) ->
  equalsModel r plan = true ->
  scanRows (map inr (pre ++ r :: post)) plan id = inr (audit.row.Id r).
Proof.
  induction pre as [|p pre IH]; intros Hno Hr; simpl.
  - now rewrite Hr.
  - rewrite (Hno p (or_introl eq_refl)). apply IH; [|exact Hr].
    intros r' Hin. apply Hno. now right.
Qed.

(** [Create] once both procedure calls and both confirmations went
    through and every listed row scanned: the scan decides. *)
Lemma Create_after_listing (req : audit.Request) (db : sql.DB Session)
    (s1 s2 s3 s4 : Session) (ov1 ov2 : sql.NullInt16)
    (om1 om2 : sql.NullString) (rows : list audit.row.auditRuleRow) :
  diag.HasError (audit.GetDiags req) = false ->
  driverExec (sql.session db) (audit.createStmt (audit.GetModel req)) = (None, s1) ->
  driverQueryOut s1 audit.confirmStmt = (inr (ov1, om1), s2) ->
  (sql.Int16 ov1 <= 0)%Z ->
  driverQuery s2 audit.listStmt = (inr (map inr rows), s3) ->
  driverQueryOut s3 audit.confirmStmt = (inr (ov2, om2), s4) ->
  (sql.Int16 ov2 <= 0)%Z ->
  fst (auditCreate req db) =
  match scanRows (map inr rows) (audit.GetModel req) (-1) with
  | inl e => audit.failCreate (audit.GetDiags req) e
  | inr id =>
      if (id =? -1)%Z then
        audit.failCreate (audit.GetDiags req) audit.notFoundAfterCreation
      else
        audit.mkResponse (audit.GetDiags req)
          (Some (audit.mkModel (types.Int64Value id)
                   (audit.User (audit.GetModel req))
                   (audit.Database (audit.GetModel req))
                   (audit.Object (audit.GetModel req))
                   (audit.Operation (audit.GetModel req))
                   (audit.OpsResult (audit.GetModel req))))
  end.
Proof.
  intros Hd He Hc1 Hov1 Hl Hc2 Hov2.
  unfold audit.Create, diag.Append. cbn [app]. rewrite Hd.
  unfold audit.ExecContext. fold (audit.createStmt (audit.GetModel req)).
  rewrite He.
  rewrite (confirm_scanned _ ov1 om1 s2) by exact Hc1.
  replace (0 <? sql.Int16 ov1)%Z with false by (symmetry; apply Z.ltb_ge; lia).
  unfold audit.QueryContext. cbn [sql.session sql.issued]. fold audit.listStmt.
  rewrite Hl.
  rewrite (confirm_scanned _ ov2 om2 s4) by exact Hc2.
  replace (0 <? sql.Int16 ov2)%Z with false by (symmetry; apply Z.ltb_ge; lia).
  destruct (scanRows (map inr rows) (audit.GetModel req) (-1)) as [e|id];
    [reflexivity|].
  now destruct (id =? -1)%Z.
Qed.

(** C6 (amended): after a create call and a listing that both went through
    and were both confirmed, with every listed row scanned: if no listed
    row matches the plan in its five fields, [Create] fails with the
    "not found after creation" error and writes no state; if a row matches
    and the first such row has an id other than -1, [Create] adds no
    error and writes the plan with that row's id. *)
Theorem Create_correlates_first_match (req : audit.Request)
    (db : sql.DB Session) (s1 s2 s3 s4 : Session) (ov1 ov2 : sql.NullInt16)
    (om1 om2 : sql.NullString) (rows : list audit.row.auditRuleRow) :
  diag.HasError (audit.GetDiags req) = false ->
  driverExec (sql.session db) (audit.createStmt (audit.GetModel req)) = (None, s1) ->
  driverQueryOut s1 audit.confirmStmt = (inr (ov1, om1), s2) ->
  (sql.Int16 ov1 <= 0)%Z ->
  driverQuery s2 audit.listStmt = (inr (map inr rows), s3) ->
  driverQueryOut s3 audit.confirmStmt = (inr (ov2, om2), s4) ->
  (sql.Int16 ov2 <= 0)%Z ->
  let plan := audit.GetModel req in
  let resp := fst (auditCreate req db) in
  ((forall r, In r rows -> ~ fieldsMatch r plan) ->
   audit.Diagnostics resp =
     audit.GetDiags req ++
     [diag.mkDiagnostic diag.SeverityError audit.createSummary
        (audit.createDetail audit.notFoundAfterCreation)] /\
   diag.HasError (audit.Diagnostics resp) = true /\
   audit.State resp = None) /\
  (forall pre r post,
     rows = pre ++ r :: post ->
     (forall r', In r' pre -> ~ fieldsMatch r' plan) ->
     fieldsMatch r plan ->
     audit.row.Id r <> (-1)%Z ->
     audit.Diagnostics resp = audit.GetDiags req /\
     audit.State resp =
       Some (audit.mkModel (types.Int64Value (audit.row.Id r))
               (audit.User plan) (audit.Database plan) (audit.Object plan)
               (audit.Operation plan) (audit.OpsResult plan))).
Proof.
  intros Hd He Hc1 Hov1 Hl Hc2 Hov2 plan resp.
  assert (Hno : forall l, (forall r, In r l -> ~ fieldsMatch r plan) ->
                          forall r, In r l -> equalsModel r plan = false).
  { intros l H r Hin. destruct (equalsModel r plan) eqn:E; [|reflexivity].
    exfalso. apply (H r Hin). now apply equalsModel_fieldsMatch. }
  subst resp.
  rewrite (Create_after_listing req db s1 s2 s3 s4 ov1 ov2 om1 om2 rows)
    by assumption.
  fold plan. split.
  - intros Hnone. rewrite scanRows_no_match by (apply Hno, Hnone).
    rewrite Z.eqb_refl. unfold audit.failCreate.
    cbn [audit.Diagnostics audit.State].
    rewrite HasError_AddError. auto.
  - intros pre r post -> Hpre Hr Hid.
    rewrite scanRows_first_match;
      [|apply Hno, Hpre|now apply equalsModel_fieldsMatch].
    apply Z.eqb_neq in Hid. rewrite Hid. cbn. auto.
Qed.

End AuditProperties.

(** C5 (as stated, refuted): a session whose status is -1 is nonzero, yet
    the confirm step reports no error. *)
Lemma confirm_negative_status_succeeds :
  sql.Int16 (audit.outval (sql.session (cannedDB (-1) "rule rejected" []))) <> 0%Z /\
  fst (cannedConfirm (cannedDB (-1) "rule rejected" [])) = None.
Proof. split; [discriminate | reflexivity]. Qed.

Lemma confirm_fails_iff_positive_witness :
  fst (cannedConfirm (cannedDB 1 "rule rejected" [])) = Some "rule rejected" /\
  fst (cannedConfirm (cannedDB 0 "" [])) = None.
Proof.
  split.
  - refine (proj1 (proj2 (confirm_fails_iff_positive audit.cannedSession
              audit.cannedQueryOut (cannedDB 1 "rule rejected" [])
              _ _ _ eq_refl)) _).
    reflexivity.
  - refine (proj2 (proj2 (confirm_fails_iff_positive audit.cannedSession
              audit.cannedQueryOut (cannedDB 0 "" [])
              _ _ _ eq_refl)) _).
    simpl. lia.
Defined.

(** C6 (as stated, refuted): the only listed row matches the plan in all
    five fields, but its id is -1, the value [Create] starts from: the
    operation reports "not found after creation" and writes no state. *)
Lemma Create_first_match_with_id_minus_one :
  audit.fieldsMatch asciiEqualFold (matchingRule (-1)) examplePlan /\
  fst (cannedCreate exampleRequest (cannedDB 0 "" [matchingRule (-1)])) =
    audit.failCreate [] audit.notFoundAfterCreation /\
  audit.State (fst (cannedCreate exampleRequest
                      (cannedDB 0 "" [matchingRule (-1)]))) = None.
Proof. unfold audit.fieldsMatch. repeat split; reflexivity. Qed.

Lemma Create_correlates_first_match_witness :
  audit.State (fst (cannedCreate exampleRequest (cannedDB 0 "" [otherRule]))) = None /\
  audit.State (fst (cannedCreate exampleRequest
                      (cannedDB 0 "" [otherRule; matchingRule 7; matchingRule 9]))) =
    Some (audit.mkModel (types.Int64Value 7) (types.StringValue "alice")
            (types.StringValue "app") (types.StringValue "orders")
            (types.StringValue "select") (types.StringValue "B")).
Proof.
  split.
  - refine (proj2 (proj2 (proj1 (Create_correlates_first_match asciiEqualFold
              audit.cannedSession audit.cannedExec audit.cannedQueryOut
              audit.cannedQuery exampleRequest (cannedDB 0 "" [otherRule])
              _ _ _ _ _ _ _ _ [otherRule]
              eq_refl eq_refl eq_refl _ eq_refl eq_refl _) _))).
    + simpl; lia.
    + simpl; lia.
    + intros r [<-|[]]. unfold audit.fieldsMatch. simpl. intuition discriminate.
  - refine (proj2 (proj2 (Create_correlates_first_match asciiEqualFold
              audit.cannedSession audit.cannedExec audit.cannedQueryOut
              audit.cannedQuery exampleRequest
              (cannedDB 0 "" [otherRule; matchingRule 7; matchingRule 9])
              _ _ _ _ _ _ _ _ [otherRule; matchingRule 7; matchingRule 9]
              eq_refl eq_refl eq_refl _ eq_refl eq_refl _)
              [otherRule] (matchingRule 7) [matchingRule 9] eq_refl _ _ _)).
    + simpl; lia.
    + simpl; lia.
    + intros r [<-|[]]. unfold audit.fieldsMatch. simpl. intuition discriminate.
    + unfold audit.fieldsMatch. simpl. auto.
    + simpl. lia.
Defined.

(** ** Grant reconciliation *)

Section GrantProperties.

Variable EqualFold : string -> string -> bool.

Abbreviation V := types.ValueString.
Abbreviation reconcile := (grant.reconcile EqualFold).
Abbreviation firstMatch := (grant.firstMatch EqualFold).
Abbreviation emitted := (grant.emitted EqualFold).
Abbreviation foldDistinct := (grant.foldDistinct EqualFold).

Lemma searchState_firstMatch (D : list types.String) (o : types.String)
    (acc : list types.String) :
  grant.searchState EqualFold D o acc =
  match firstMatch D o with
  | Some d => (true, acc ++ [d])
  | None => (false, acc)
  end.
Proof.
  unfold grant.firstMatch. induction D as [|d D IH]; simpl; [reflexivity|].
  destruct (EqualFold (V d) (V o)); [reflexivity | exact IH].
Qed.

Lemma reconcile_map (D O : list types.String) :
  reconcile D O = map (emitted D) O.
Proof.
  unfold grant.reconcile.
  enough (H : forall acc,
             fold_left
               (fun privileges rowPermission =>
                  let (found, privileges) :=
                    grant.searchState EqualFold D rowPermission privileges in
                  if negb found then privileges ++ [rowPermission]
                  else privileges) O acc
             = acc ++ map (emitted D) O) by apply (H []).
  induction O as [|o O IH]; intros acc; simpl.
  - now rewrite app_nil_r.
  - rewrite searchState_firstMatch, IH. unfold grant.emitted.
    destruct (firstMatch D o); simpl; now rewrite <- app_assoc.
Qed.

Lemma firstMatch_Some (D : list types.String) (o d : types.String) :
  firstMatch D o = Some d ->
  exists pre post,
    D = pre ++ d :: post /\
    (forall d', In d' pre -> EqualFold (V d') (V o) = false) /\
    EqualFold (V d) (V o) = true.
Proof.
  unfold grant.firstMatch. induction D as [|x D IH]; simpl; [discriminate|].
  destruct (EqualFold (V x) (V o)) eqn:E.
  - intros [= <-]. exists [], D. simpl. tauto.
  - intros H. destruct (IH H) as (pre & post & -> & Hpre & Hd).
    exists (x :: pre), post. simpl. repeat split; [|exact Hd].
    intros d' [<-|Hin]; [exact E | now apply Hpre].
Qed.

Lemma firstMatch_None (D : list types.String) (o : types.String) :
  firstMatch D o = None <->
  forall d, In d D -> EqualFold (V d) (V o) = false.
Proof.
  unfold grant.firstMatch. split.
  - intros H d Hin. exact (find_none _ _ H d Hin).
  - induction D as [|x D IH]; simpl; [reflexivity|]. intros H.
    rewrite (H x (or_introl eq_refl)). apply IH. intros d Hin.
    apply H. now right.
Qed.

Lemma firstMatch_skip (pre post : list types.String) (x o : types.String) :
  (forall p, In p pre -> EqualFold (V p) (V o) = false) ->
  EqualFold (V x) (V o) = true ->
  firstMatch (pre ++ x :: post) o = Some x.
Proof.
  unfold grant.firstMatch. induction pre as [|p pre IH]; simpl; intros Hpre Hx.
  - now rewrite Hx.
  - rewrite (Hpre p (or_introl eq_refl)). apply IH; [|exact Hx].
    intros q Hq. apply Hpre. now right.
Qed.

Lemma allPrivilegesStringValues_map (r : dbRow) :
  allPrivilegesStringValues r = map types.StringValue (allPrivileges r).
Proof.
  unfold allPrivilegesStringValues.
  enough (H : forall l acc,
             fold_left (fun privileges priv =>
                          privileges ++ [types.StringValue priv]) l acc
             = acc ++ map types.StringValue l) by apply (H _ []).
  induction l as [|x l IH]; intros acc; simpl.
  - now rewrite app_nil_r.
  - now rewrite IH, <- app_assoc.
Qed.

Lemma foldDistinct_filter {A} (name : A -> string) (f : A -> bool) (l : list A) :
  foldDistinct (map types.StringValue (map name l)) ->
  foldDistinct (map types.StringValue (map name (List.filter f l))).
Proof.
  induction l as [|x l IH]; simpl; [tauto|]. intros [Hx Hl].
  destruct (f x); simpl; [split|]; auto.
  intros p Hp. apply Hx.
  rewrite in_map_iff in Hp. destruct Hp as (n & <- & Hn).
  rewrite in_map_iff in Hn. destruct Hn as (y & <- & Hy).
  apply filter_In in Hy. apply in_map, in_map. tauto.
Qed.

Section Folding.

(** What the properties below use of [strings.EqualFold]: it is an
    equivalence, and on two ASCII strings it is the byte-wise comparison
    of its fast path. *)
Hypothesis EqualFold_refl : forall s, EqualFold s s = true.
Hypothesis EqualFold_sym : forall s t, EqualFold s t = EqualFold t s.
Hypothesis EqualFold_trans :
  forall s t u, EqualFold s t = true -> EqualFold t u = true ->
                EqualFold s u = true.
Hypothesis EqualFold_ascii :
  forall s t, isASCII s = true -> isASCII t = true ->
              EqualFold s t = asciiEqualFold s t.

Lemma emitted_matches (D : list types.String) (o : types.String) :
  EqualFold (V (emitted D o)) (V o) = true.
Proof using EqualFold_refl.
  unfold grant.emitted. destruct (firstMatch D o) as [d|] eqn:E.
  - now destruct (firstMatch_Some _ _ _ E) as (_ & _ & _ & _ & H).
  - apply EqualFold_refl.
Qed.

Lemma asciiDistinctb_foldDistinct (names : list string) :
  forallb isASCII names = true -> asciiDistinctb names = true ->
  foldDistinct (map types.StringValue names).
Proof using EqualFold_ascii.
  induction names as [|n names IH]; simpl; [tauto|].
  intros Ha Hd. apply andb_prop in Ha, Hd.
  destruct Ha as [Hn Ha], Hd as [Hnd Hd]. split; [|now apply IH].
  intros p Hp. rewrite in_map_iff in Hp. destruct Hp as (q & <- & Hq).
  simpl. rewrite EqualFold_ascii; [|exact Hn|].
  - rewrite forallb_forall in Hnd. apply negb_true_iff. now apply Hnd.
  - rewrite forallb_forall in Ha. now apply Ha.
Qed.

Lemma observed_foldDistinct (r : dbRow) :
  foldDistinct (allPrivilegesStringValues r).
Proof using EqualFold_ascii.
  rewrite allPrivilegesStringValues_map, allPrivileges_table.
  apply foldDistinct_filter.
  apply asciiDistinctb_foldDistinct; vm_compute; reflexivity.
Qed.

Lemma emitted_fixed (D : list types.String) :
  forall O pre,
    (forall p o, In p pre -> In o O -> EqualFold (V p) (V o) = false) ->
    foldDistinct O ->
    map (emitted (map (emitted D) pre ++ map (emitted D) O)) O =
    map (emitted D) O.
Proof using EqualFold_refl EqualFold_sym EqualFold_trans.
  induction O as [|a O IH]; intros pre Hpre Hd; [reflexivity|].
  destruct Hd as [Ha Hd]. cbn [map]. f_equal.
  - unfold grant.emitted at 1. rewrite firstMatch_skip; [reflexivity| |].
    + intros p' Hp'. rewrite in_map_iff in Hp'.
      destruct Hp' as (p & <- & Hp).
      destruct (EqualFold (V (emitted D p)) (V a)) eqn:E; [|reflexivity].
      rewrite <- (Hpre p a Hp (or_introl eq_refl)). symmetry.
      apply (EqualFold_trans _ (V (emitted D p))); [|exact E].
      rewrite EqualFold_sym. apply emitted_matches.
    + apply emitted_matches.
  - specialize (IH (pre ++ [a])).
    rewrite map_app, <- app_assoc in IH. apply IH; [|exact Hd].
    intros p o Hp Ho. apply in_app_or in Hp. destruct Hp as [Hp|[<-|[]]].
    + apply Hpre; [exact Hp | now right].
    + now apply Ha.
Qed.

Lemma reconcile_fixed_point_distinct (D O : list types.String) :
  foldDistinct O -> reconcile (reconcile D O) O = reconcile D O.
Proof using EqualFold_refl EqualFold_sym EqualFold_trans.
  intros Hd. rewrite !reconcile_map.
  apply (emitted_fixed D O []); [intros p o []|exact Hd].
Qed.

(** C1: reconciling again, with the reconciled list as the desired one and
    the same observed list, returns the reconciled list unchanged. The
    observed list is the one [Read] reconciles against: the decoding
    [allPrivilegesStringValues] of a privilege-table row. *)
Theorem reconcile_fixed_point (D : list types.String) (r : dbRow) :
  reconcile (reconcile D (allPrivilegesStringValues r))
            (allPrivilegesStringValues r)
  = reconcile D (allPrivilegesStringValues r).
Proof using EqualFold_refl EqualFold_sym EqualFold_trans EqualFold_ascii.
  apply reconcile_fixed_point_distinct, observed_foldDistinct.
Qed.

(** C2: the reconciled list runs parallel to the observed one: it has the
    same length and its entry at each position folds to the observed entry
    at that position. So every emitted privilege folds to an observed one,
    and every observed privilege has exactly its one entry in the output. *)
Theorem reconcile_reflects_observed (D O : list types.String) :
  Forall2 (fun o p => EqualFold (V p) (V o) = true) O (reconcile D O) /\
  length (reconcile D O) = length O /\
  (forall p, In p (reconcile D O) ->
             exists o, In o O /\ EqualFold (V p) (V o) = true) /\
  (forall i o, nth_error O i = Some o ->
               exists p, nth_error (reconcile D O) i = Some p /\
                         EqualFold (V p) (V o) = true).
Proof using EqualFold_refl.
  rewrite reconcile_map. repeat split.
  - induction O as [|o O IH]; simpl; constructor;
      [apply emitted_matches | exact IH].
  - now rewrite length_map.
  - intros p Hp. rewrite in_map_iff in Hp. destruct Hp as (o & <- & Ho).
    exists o. split; [exact Ho | apply emitted_matches].
  - intros i o Hi. exists (emitted D o). split.
    + now apply map_nth_error.
    + apply emitted_matches.
Qed.

(** C3: for the observed privilege at any position, if some desired entry
    folds to it, the output holds at that position the first such desired
    entry, as the desired list spells it; if none does, the output holds
    the observed entry itself. With it the two examples: desired "select"
    against observed "SELECT" yields "select", and an empty desired list
    against observed "SELECT", "INSERT" yields these two. *)
Theorem reconcile_keeps_desired_spelling (D O : list types.String) :
  (forall i o,
     nth_error O i = Some o ->
     ((exists d, In d D /\ EqualFold (V d) (V o) = true) ->
      exists pre d post,
        D = pre ++ d :: post /\
        (forall d', In d' pre -> EqualFold (V d') (V o) = false) /\
        EqualFold (V d) (V o) = true /\
        nth_error (reconcile D O) i = Some d) /\
     ((forall d, In d D -> EqualFold (V d) (V o) = false) ->
      nth_error (reconcile D O) i = Some o)) /\
  reconcile [types.StringValue "select"] [types.StringValue "SELECT"]
    = [types.StringValue "select"] /\
  reconcile [] [types.StringValue "SELECT"; types.StringValue "INSERT"]
    = [types.StringValue "SELECT"; types.StringValue "INSERT"].
Proof using EqualFold_ascii.
  split; [|split].
  - intros i o Hi. rewrite reconcile_map.
    rewrite (map_nth_error (emitted D) _ _ Hi). unfold grant.emitted. split.
    + intros (d0 & Hin & Hd0).
      destruct (firstMatch D o) as [d|] eqn:E.
      * destruct (firstMatch_Some _ _ _ E) as (pre & post & HD & Hpre & Hd).
        exists pre, d, post. auto.
      * rewrite firstMatch_None in E. rewrite (E d0 Hin) in Hd0. discriminate.
    + intros Hnone. apply firstMatch_None in Hnone. now rewrite Hnone.
  - rewrite reconcile_map. cbn [map]. unfold grant.emitted, grant.firstMatch. cbn.
    now rewrite EqualFold_ascii.
  - rewrite reconcile_map. reflexivity.
Qed.

End Folding.

End GrantProperties.

Lemma asciiEqualFold_on_ascii (s t : string) :
  isASCII s = true -> isASCII t = true ->
  asciiEqualFold s t = asciiEqualFold s t.
Proof. reflexivity. Qed.

Lemma reconcile_fixed_point_witness :
  grant.reconcile asciiEqualFold
    (grant.reconcile asciiEqualFold
       [types.StringValue "insert"; types.StringValue "Drop"]
       (allPrivilegesStringValues selectInsertRow))
    (allPrivilegesStringValues selectInsertRow)
  = [types.StringValue "SELECT"; types.StringValue "insert"].
Proof.
  rewrite (reconcile_fixed_point asciiEqualFold asciiEqualFold_refl
             asciiEqualFold_sym asciiEqualFold_trans asciiEqualFold_on_ascii).
  reflexivity.
Defined.

Lemma reconcile_reflects_observed_witness :
  length (grant.reconcile asciiEqualFold
            [types.StringValue "insert"; types.StringValue "Drop"]
            (allPrivilegesStringValues selectInsertRow)) = 2%nat /\
  exists p,
    nth_error (grant.reconcile asciiEqualFold
                 [types.StringValue "insert"; types.StringValue "Drop"]
                 (allPrivilegesStringValues selectInsertRow)) 1 = Some p /\
    asciiEqualFold (types.ValueString p) "INSERT" = true.
Proof.
  pose proof (reconcile_reflects_observed asciiEqualFold asciiEqualFold_refl
                [types.StringValue "insert"; types.StringValue "Drop"]
                (allPrivilegesStringValues selectInsertRow)) as H.
  split.
  - exact (proj1 (proj2 H)).
  - exact (proj2 (proj2 (proj2 H)) 1%nat (types.StringValue "INSERT") eq_refl).
Defined.

Lemma reconcile_keeps_desired_spelling_witness :
  nth_error (grant.reconcile asciiEqualFold
               [types.StringValue "insert"; types.StringValue "Drop"]
               [types.StringValue "SELECT"; types.StringValue "INSERT"]) 0
  = Some (types.StringValue "SELECT") /\
  exists pre d post,
    [types.StringValue "insert"; types.StringValue "Drop"] = pre ++ d :: post /\
    (forall d', In d' pre ->
                asciiEqualFold (types.ValueString d') "INSERT" = false) /\
    asciiEqualFold (types.ValueString d) "INSERT" = true /\
    nth_error (grant.reconcile asciiEqualFold
                 [types.StringValue "insert"; types.StringValue "Drop"]
                 [types.StringValue "SELECT"; types.StringValue "INSERT"]) 1
    = Some d.
Proof.
  split.
  - refine (proj2 (proj1 (reconcile_keeps_desired_spelling asciiEqualFold
              asciiEqualFold_on_ascii
              [types.StringValue "insert"; types.StringValue "Drop"]
              [types.StringValue "SELECT"; types.StringValue "INSERT"])
              0%nat (types.StringValue "SELECT") eq_refl) _).
    intros d [<-|[<-|[]]]; reflexivity.
  - refine (proj1 (proj1 (reconcile_keeps_desired_spelling asciiEqualFold
              asciiEqualFold_on_ascii
              [types.StringValue "insert"; types.StringValue "Drop"]
              [types.StringValue "SELECT"; types.StringValue "INSERT"])
              1%nat (types.StringValue "INSERT") eq_refl) _).
    exists (types.StringValue "insert"). split; [now left | reflexivity].
Defined.

(** ** Grant lifecycle: [Read] and [Create] against a session *)

Section GrantLifecycle.

Variable EqualFold : string -> string -> bool.
Variable Session : Type.
Variable driverExec : Session -> sql.Stmt -> error * Session.
Variable driverQueryRow : Session -> sql.Stmt -> (string + dbRow) * Session.

Abbreviation grantRead := (grant.Read EqualFold Session driverQueryRow).
Abbreviation grantCreate := (grant.Create Session driverExec).
Abbreviation grantValidatedCreate := (grant.validatedCreate Session driverExec).

Lemma Read_query (req : grant.Request) (db : sql.DB Session) :
  diag.HasError (grant.GetDiags req) = false ->
  snd (grant.userOrRole (grant.GetModel req)) = None ->
  fst (grantRead req db) =
  match fst (driverQueryRow (sql.session db) (grant.readStmt (grant.GetModel req))) with
  | inl e =>
      grant.mkResponse (grant.GetDiags req ++ [grant.readErrorDiagnostic e]) None
  | inr row =>
      grant.mkResponse (grant.GetDiags req)
        (Some (grant.mkModel
                 (grant.Database (grant.GetModel req))
                 (grant.User (grant.GetModel req))
                 (grant.Role (grant.GetModel req))
                 (grant.Host (grant.GetModel req))
                 (grant.reconcile EqualFold
                    (grant.Privileges (grant.GetModel req))
                    (allPrivilegesStringValues row))
                 (withGrantOption_row row)))
  end.
Proof.
  intros Hd Hu. unfold grant.Read, diag.Append. cbn [app]. rewrite Hd.
  unfold grant.readStmt, grant.principal.
  destruct (grant.userOrRole (grant.GetModel req)) as [u err].
  simpl in Hu. subst err. unfold grant.QueryRowContext_Scan. cbn [fst].
  destruct (driverQueryRow _ _) as [[e|row] s']; reflexivity.
Qed.

(** C4 (amended): for a state that decodes without error and names a user
    or a role: when reading the privilege-table row fails, as it does with
    [sql.ErrNoRows] when the row is missing, [Read] adds the read error
    and writes no state; when the row is there, [Read] adds no error and
    writes the reconciled state, and a row without any ["Y"] flag is
    written with an empty privilege list. *)
Theorem Read_missing_row_or_empty_privileges (req : grant.Request)
    (db : sql.DB Session) :
  diag.HasError (grant.GetDiags req) = false ->
  snd (grant.userOrRole (grant.GetModel req)) = None ->
  let state := grant.GetModel req in
  let resp := fst (grantRead req db) in
  (forall e,
     fst (driverQueryRow (sql.session db) (grant.readStmt state)) = inl e ->
     grant.Diagnostics resp = grant.GetDiags req ++ [grant.readErrorDiagnostic e] /\
     diag.HasError (grant.Diagnostics resp) = true /\
     grant.State resp = None) /\
  (forall row,
     fst (driverQueryRow (sql.session db) (grant.readStmt state)) = inr row ->
     grant.Diagnostics resp = grant.GetDiags req /\
     diag.HasError (grant.Diagnostics resp) = false /\
     grant.State resp =
       Some (grant.mkModel (grant.Database state) (grant.User state)
               (grant.Role state) (grant.Host state)
               (grant.reconcile EqualFold (grant.Privileges state)
                  (allPrivilegesStringValues row))
               (withGrantOption_row row)) /\
     (allPrivileges row = [] ->
      grant.State resp =
        Some (grant.mkModel (grant.Database state) (grant.User state)
                (grant.Role state) (grant.Host state) []
                (withGrantOption_row row)))).
Proof.
  intros Hd Hu state resp. subst resp state.
  rewrite (Read_query req db Hd Hu). split.
  - intros e ->. cbn [grant.Diagnostics grant.State].
    repeat split. apply HasError_snoc_error.
  - intros row ->. cbn. repeat split; [exact Hd|].
    intros Hnone. rewrite allPrivilegesStringValues_map, Hnone. reflexivity.
Qed.

(** C9: a grant whose user and role are both set, or both null, is
    rejected by the declared config validators, so creating it fails with
    no state written and without a statement issued on the handle; with
    both null, [Create] by itself fails the same way. *)
Theorem Create_requires_exactly_one_principal (req : grant.Request)
    (db : sql.DB Session) :
  let plan := grant.GetModel req in
  (grant.stringState (grant.User plan) = grant.AttrKnown /\
   grant.stringState (grant.Role plan) = grant.AttrKnown) \/
  (types.IsNull (grant.User plan) = true /\
   types.IsNull (grant.Role plan) = true) ->
  (diag.HasError (grant.ValidateResourceConfig plan) = true /\
   diag.HasError (grant.Diagnostics (fst (grantValidatedCreate req db))) = true /\
   grant.State (fst (grantValidatedCreate req db)) = None /\
   snd (grantValidatedCreate req db) = db) /\
  (types.IsNull (grant.User plan) = true ->
   types.IsNull (grant.Role plan) = true ->
   diag.HasError (grant.Diagnostics (fst (grantCreate req db))) = true /\
   grant.State (fst (grantCreate req db)) = None /\
   snd (grantCreate req db) = db).
Proof.
  intros plan Hcase. split.
  - assert (Hv : diag.HasError (grant.ValidateResourceConfig plan) = true).
    { unfold grant.ValidateResourceConfig, grant.ConfigValidators,
        grant.Validate, grant.isConfigured, grant.isUnknown. cbn.
      destruct Hcase as [[Hu Hr]|[Hu Hr]].
      - rewrite Hu, Hr. reflexivity.
      - destruct (grant.User plan), (grant.Role plan); try discriminate.
        reflexivity. }
    unfold grant.validatedCreate. fold plan. rewrite Hv. cbn. auto.
  - intros Hu Hr. unfold grant.Create, grant.userOrRole. fold plan.
    rewrite Hu, Hr. cbn [andb].
    destruct (diag.HasError (diag.Append [] (grant.GetDiags req))) eqn:Hd;
      cbn [fst snd grant.Diagnostics grant.State]; repeat split;
      [exact Hd | apply HasError_AddError].
Qed.

End GrantLifecycle.

(** C4 (as stated, refuted): the row exists and none of its flags is
    ["Y"]; [Read] reports no error and writes the state with an empty
    privilege list. *)
Lemma Read_row_without_flags_succeeds :
  allPrivileges allNoRow = [] /\
  fst (cannedRead (grant.mkRequest [] aliceState)
         (sql.open (mkCannedGrants (Some allNoRow)))) =
  grant.mkResponse []
    (Some (grant.mkModel (types.StringValue "app") (types.StringValue "alice")
             types.StringNull (types.StringValue "%") []
             (types.BoolValue false))).
Proof. split; reflexivity. Qed.

Lemma Read_missing_row_or_empty_privileges_witness :
  (grant.State (fst (cannedRead (grant.mkRequest [] aliceState)
                       (sql.open (mkCannedGrants None)))) = None /\
   diag.HasError
     (grant.Diagnostics (fst (cannedRead (grant.mkRequest [] aliceState)
                                (sql.open (mkCannedGrants None))))) = true) /\
  grant.State (fst (cannedRead (grant.mkRequest [] aliceState)
                      (sql.open (mkCannedGrants (Some selectInsertRow))))) =
  Some (grant.mkModel (types.StringValue "app") (types.StringValue "alice")
          types.StringNull (types.StringValue "%")
          [types.StringValue "select"; types.StringValue "Insert"]
          (types.BoolValue false)).
Proof.
  split.
  - pose proof (proj1 (Read_missing_row_or_empty_privileges asciiEqualFold
                  cannedGrants cannedGrantQueryRow
                  (grant.mkRequest [] aliceState)
                  (sql.open (mkCannedGrants None)) eq_refl eq_refl)
                  sql.ErrNoRows eq_refl) as H.
    split; [exact (proj2 (proj2 H)) | exact (proj1 (proj2 H))].
  - pose proof (proj2 (Read_missing_row_or_empty_privileges asciiEqualFold
                  cannedGrants cannedGrantQueryRow
                  (grant.mkRequest [] aliceState)
                  (sql.open (mkCannedGrants (Some selectInsertRow)))
                  eq_refl eq_refl)
                  selectInsertRow eq_refl) as H.
    exact (proj1 (proj2 (proj2 H))).
Defined.

Lemma Create_requires_exactly_one_principal_witness :
  (grant.State (fst (cannedValidatedCreate (grant.mkRequest [] bothSetModel)
                       (sql.open (mkCannedGrants None)))) = None /\
   snd (cannedValidatedCreate (grant.mkRequest [] bothSetModel)
          (sql.open (mkCannedGrants None))) = sql.open (mkCannedGrants None)) /\
  (grant.State (fst (cannedGrantCreate (grant.mkRequest [] neitherSetModel)
                       (sql.open (mkCannedGrants None)))) = None /\
   snd (cannedGrantCreate (grant.mkRequest [] neitherSetModel)
          (sql.open (mkCannedGrants None))) = sql.open (mkCannedGrants None)).
Proof.
  split.
  - pose proof (proj1 (Create_requires_exactly_one_principal cannedGrants
                  cannedGrantExec (grant.mkRequest [] bothSetModel)
                  (sql.open (mkCannedGrants None))
                  (or_introl (conj eq_refl eq_refl)))) as H.
    split; [exact (proj1 (proj2 (proj2 H))) | exact (proj2 (proj2 (proj2 H)))].
  - pose proof (proj2 (Create_requires_exactly_one_principal cannedGrants
                  cannedGrantExec (grant.mkRequest [] neitherSetModel)
                  (sql.open (mkCannedGrants None))
                  (or_intror (conj eq_refl eq_refl))) eq_refl eq_refl) as H.
    split; [exact (proj1 (proj2 H)) | exact (proj2 (proj2 H))].
Defined.

(** [Create] called directly on a plan with both user and role set does
    not stop: it grants to the user. The rejection of such a plan is the
    validators' alone. *)
Example Create_both_set_grants_to_user :
  cannedGrantCreate (grant.mkRequest [] bothSetModel)
    (sql.open (mkCannedGrants None)) =
  (grant.mkResponse [] (Some bothSetModel),
   sql.mkDB (mkCannedGrants None)
     [("GRANT SELECT ON app.* TO alice@'%'", [])]).
Proof. reflexivity. Qed.

(** Reconciling against a list that twice holds the same privilege in
    different spellings, which no decoded row does, is not stable. *)
Example reconcile_unstable_on_folded_duplicates :
  let O := [types.StringValue "SELECT"; types.StringValue "select"] in
  grant.reconcile asciiEqualFold [] O = O /\
  grant.reconcile asciiEqualFold (grant.reconcile asciiEqualFold [] O) O =
  [types.StringValue "SELECT"; types.StringValue "SELECT"].
Proof. split; reflexivity. Qed.

(** * Further properties of the code *)

(** ** Decoding a row *)

Lemma map_snd_filter_sublist {A B} (f : A * B -> bool) (l : list (A * B)) :
  sublist (map snd (List.filter f l)) (map snd l).
Proof.
  induction l as [|e l IH]; simpl; [constructor|].
  destruct (f e); simpl; now constructor.
Qed.

(** X1: whatever the row holds, the decoded privilege list is a
    subsequence of the catalog: its names are catalog names, in catalog
    order, none twice, at most 18 of them. *)
Theorem allPrivileges_subsequence_of_catalog (r : dbRow) :
  sublist (allPrivileges r) catalogNames /\
  List.NoDup (allPrivileges r) /\
  (length (allPrivileges r) <= 18)%nat /\
  (forall name, In name (allPrivileges r) -> In name catalogNames).
Proof.
  assert (Hs : sublist (allPrivileges r) catalogNames).
  { rewrite allPrivileges_table. apply map_snd_filter_sublist. }
  assert (Hd : NoDup catalogNames).
  { apply NoDup_ListNoDup. vm_compute.
    repeat (constructor; [simpl; intuition discriminate|]). constructor. }
  split; [exact Hs|]. split; [|split].
  - apply NoDup_ListNoDup. eapply sublist_NoDup; eassumption.
  - apply sublist_length in Hs. exact Hs.
  - intros name Hin. apply list_elem_of_In.
    apply list_elem_of_In in Hin. eapply elem_of_sublist; eassumption.
Qed.

Lemma allPrivileges_subsequence_of_catalog_witness :
  In "INSERT" catalogNames.
Proof.
  apply (proj2 (proj2 (proj2 (allPrivileges_subsequence_of_catalog selectInsertRow)))).
  vm_compute. auto.
Defined.

(** ** Reconciling *)

Section ReconcileMore.

Variable EqualFold : string -> string -> bool.

Abbreviation V := types.ValueString.
Abbreviation reconcile := (grant.reconcile EqualFold).

(** X2: when no desired entry folds to any observed one, and so when the
    desired list is empty, the reconciled list is the observed list
    itself. *)
Theorem reconcile_adopts_observed (D O : list types.String) :
  ((forall d o, In d D -> In o O -> EqualFold (V d) (V o) = false) ->
   reconcile D O = O) /\
  reconcile [] O = O.
Proof.
  assert (H : forall D', (forall d o, In d D' -> In o O ->
                                      EqualFold (V d) (V o) = false) ->
                         reconcile D' O = O).
  { intros D' Hno. rewrite reconcile_map.
    rewrite <- (map_id O) at 2. apply map_ext_in. intros o Ho.
    unfold grant.emitted.
    replace (grant.firstMatch EqualFold D' o) with (@None types.String);
      [reflexivity|].
    symmetry. apply firstMatch_None. intros d Hd. now apply Hno. }
  split; [apply H|]. apply H. intros d o [].
Qed.

Hypothesis EqualFold_refl : forall s, EqualFold s s = true.

(** X3: a privilege that folds to no observed privilege is not in the
    reconciled list, whether or not it was desired. *)
Theorem reconcile_drops_unobserved (D O : list types.String)
    (d : types.String) :
  (forall o, In o O -> EqualFold (V d) (V o) = false) ->
  ~ In d (reconcile D O).
Proof using EqualFold_refl.
  intros Hno Hin. rewrite reconcile_map, in_map_iff in Hin.
  destruct Hin as (o & <- & Ho).
  specialize (Hno o Ho).
  rewrite (emitted_matches EqualFold EqualFold_refl) in Hno. discriminate.
Qed.

End ReconcileMore.

Lemma reconcile_adopts_observed_witness :
  grant.reconcile asciiEqualFold
    [types.StringValue "drop"; types.StringNull]
    [types.StringValue "SELECT"; types.StringValue "INSERT"]
  = [types.StringValue "SELECT"; types.StringValue "INSERT"].
Proof.
  apply (proj1 (reconcile_adopts_observed asciiEqualFold _ _)).
  intros d o [<-|[<-|[]]] [<-|[<-|[]]]; reflexivity.
Defined.

Lemma reconcile_drops_unobserved_witness :
  ~ In (types.StringValue "drop")
       (grant.reconcile asciiEqualFold
          [types.StringValue "drop"; types.StringValue "select"]
          [types.StringValue "SELECT"; types.StringValue "INSERT"]).
Proof.
  apply (reconcile_drops_unobserved asciiEqualFold asciiEqualFold_refl).
  intros o [<-|[<-|[]]]; reflexivity.
Defined.

(** ** The grant resource, operation by operation *)

(** X4: the declared validators report an error exactly for the
    configurations in which user and role are both set or both null; with
    exactly one of them set, or with either still unknown, they pass. *)
Theorem validators_reject_exactly_both_or_neither
    (config : grant.databaseGrantResourceModel) :
  diag.HasError (grant.ValidateResourceConfig config) = true <->
  (grant.stringState (grant.User config) = grant.AttrKnown /\
   grant.stringState (grant.Role config) = grant.AttrKnown) \/
  (grant.stringState (grant.User config) = grant.AttrNull /\
   grant.stringState (grant.Role config) = grant.AttrNull).
Proof.
  unfold grant.ValidateResourceConfig, grant.ConfigValidators,
    grant.Validate, grant.isConfigured, grant.isUnknown. cbn.
  destruct (grant.User config), (grant.Role config); cbn;
    intuition (discriminate || auto).
Qed.

Lemma privilegesAsString_map (m : grant.databaseGrantResourceModel) :
  grant.privilegesAsString m = map types.ValueString (grant.Privileges m).
Proof.
  unfold grant.privilegesAsString.
  enough (H : forall l acc,
             fold_left (fun privileges priv =>
                          privileges ++ [types.ValueString priv]) l acc
             = acc ++ map types.ValueString l) by apply (H _ []).
  induction l as [|x l IH]; intros acc; simpl.
  - now rewrite app_nil_r.
  - now rewrite IH, <- app_assoc.
Qed.

Section GrantMore.

Variable EqualFold : string -> string -> bool.
Variable Session : Type.
Variable driverExec : Session -> sql.Stmt -> error * Session.
Variable driverQueryRow : Session -> sql.Stmt -> (string + dbRow) * Session.

Abbreviation grantRead := (grant.Read EqualFold Session driverQueryRow).
Abbreviation grantCreate := (grant.Create Session driverExec).
Abbreviation grantDelete := (grant.Delete Session driverExec).
Abbreviation grantUpdate := (grant.Update Session).
Abbreviation readState := (grant.readState EqualFold).

Lemma Read_run (req : grant.Request) (db : sql.DB Session) (row : dbRow)
    (s1 : Session) :
  diag.HasError (grant.GetDiags req) = false ->
  snd (grant.userOrRole (grant.GetModel req)) = None ->
  driverQueryRow (sql.session db) (grant.readStmt (grant.GetModel req))
    = (inr row, s1) ->
  grantRead req db =
  (grant.mkResponse (grant.GetDiags req)
     (Some (readState (grant.GetModel req) row)),
   sql.mkDB s1 (sql.issued db ++ [grant.readStmt (grant.GetModel req)])).
Proof.
  intros Hd Hu Hq. unfold grant.Read, diag.Append. cbn [app]. rewrite Hd.
  unfold grant.readStmt, grant.principal in *.
  destruct (grant.userOrRole (grant.GetModel req)) as [u err].
  simpl in Hu. subst err. unfold grant.QueryRowContext_Scan.
  cbn [fst] in Hq. rewrite Hq. reflexivity.
Qed.

Lemma Delete_run (req : grant.Request) (db : sql.DB Session) :
  diag.HasError (grant.GetDiags req) = false ->
  snd (grant.userOrRole (grant.GetModel req)) = None ->
  sql.issued (snd (grantDelete req db)) =
  sql.issued db ++
  [grant.revokeStmt (grant.GetModel req) (grant.privilegesAsString (grant.GetModel req))].
Proof.
  intros Hd Hu. unfold grant.Delete, diag.Append. cbn [app]. rewrite Hd.
  unfold grant.revokeStmt, grant.principal.
  destruct (grant.userOrRole (grant.GetModel req)) as [u err].
  simpl in Hu. subst err. unfold grant.ExecContext. cbn [fst].
  destruct (driverExec _ _) as [[e|] s']; reflexivity.
Qed.

(** X5: [Create] and [Read] write a state exactly when they end without
    an error diagnostic, and [Create] then writes the plan itself;
    [Delete] and [Update] never write one, and [Update] issues nothing. *)
Theorem grant_writes_state_iff_no_error (req : grant.Request)
    (db : sql.DB Session) :
  (grant.State (fst (grantCreate req db)) <> None <->
   diag.HasError (grant.Diagnostics (fst (grantCreate req db))) = false) /\
  (forall m, grant.State (fst (grantCreate req db)) = Some m ->
             m = grant.GetModel req) /\
  (grant.State (fst (grantRead req db)) <> None <->
   diag.HasError (grant.Diagnostics (fst (grantRead req db))) = false) /\
  grant.State (fst (grantDelete req db)) = None /\
  grantUpdate req db = (grant.mkResponse [] None, db).
Proof.
  unfold grant.Create, grant.Read, grant.Delete, grant.Update,
    grant.ExecContext, grant.QueryRowContext_Scan, diag.Append.
  cbn [app].
  destruct (diag.HasError (grant.GetDiags req)) eqn:Hd.
  { cbn [fst snd grant.State grant.Diagnostics]. rewrite Hd.
    intuition congruence. }
  destruct (grant.userOrRole (grant.GetModel req)) as [u [e|]].
  { cbn [fst snd grant.State grant.Diagnostics].
    rewrite !HasError_AddError. intuition congruence. }
  repeat match goal with
         | |- context [driverExec ?s ?q] =>
             destruct (driverExec s q) as [[?|] ?]
         | |- context [driverQueryRow ?s ?q] =>
             destruct (driverQueryRow s q) as [[?|?] ?]
         end;
    cbn [fst snd grant.State grant.Diagnostics];
    rewrite ?HasError_AddError, ?Hd; intuition congruence.
Qed.

Section Folding.

Hypothesis EqualFold_refl : forall s, EqualFold s s = true.
Hypothesis EqualFold_sym : forall s t, EqualFold s t = EqualFold t s.
Hypothesis EqualFold_trans :
  forall s t u, EqualFold s t = true -> EqualFold t u = true ->
                EqualFold s u = true.
Hypothesis EqualFold_ascii :
  forall s t, isASCII s = true -> isASCII t = true ->
              EqualFold s t = asciiEqualFold s t.

(** X6: refreshing twice changes nothing: when the privilege table
    answers with the same row, [Read] on the state that [Read] wrote
    writes that state again. *)
Theorem Read_twice_writes_same_state (req : grant.Request)
    (db : sql.DB Session) (row : dbRow) (s1 s2 : Session) :
  diag.HasError (grant.GetDiags req) = false ->
  snd (grant.userOrRole (grant.GetModel req)) = None ->
  driverQueryRow (sql.session db) (grant.readStmt (grant.GetModel req))
    = (inr row, s1) ->
  driverQueryRow s1 (grant.readStmt (grant.GetModel req)) = (inr row, s2) ->
  exists st,
    grant.State (fst (grantRead req db)) = Some st /\
    grant.State (fst (grantRead (grant.mkRequest [] st)
                        (snd (grantRead req db)))) = Some st.
Proof using EqualFold_refl EqualFold_sym EqualFold_trans EqualFold_ascii.
  intros Hd Hu Hq1 Hq2. exists (readState (grant.GetModel req) row).
  rewrite (Read_run req db row s1 Hd Hu Hq1). cbn [fst snd grant.State].
  split; [reflexivity|].
  rewrite (Read_run _ _ row s2); [| reflexivity | exact Hu | exact Hq2].
  cbn [fst grant.State grant.GetModel]. f_equal.
  unfold grant.readState. cbn [grant.Database grant.User grant.Role grant.Host
                           grant.Privileges]. f_equal.
  apply (reconcile_fixed_point_distinct EqualFold EqualFold_refl
           EqualFold_sym EqualFold_trans).
  apply (observed_foldDistinct EqualFold EqualFold_ascii).
Qed.

(** X7: deleting a grant that was just read revokes what the row
    holds: the REVOKE statement names as many privileges as the row has
    flags set, each folding to the catalog name at its position, on the
    state's database, principal and host. *)
Theorem Delete_after_Read_revokes_row_privileges (req : grant.Request)
    (db : sql.DB Session) (row : dbRow) (s1 : Session) :
  diag.HasError (grant.GetDiags req) = false ->
  snd (grant.userOrRole (grant.GetModel req)) = None ->
  driverQueryRow (sql.session db) (grant.readStmt (grant.GetModel req))
    = (inr row, s1) ->
  exists st names,
    grant.State (fst (grantRead req db)) = Some st /\
    Forall2 (fun o n => EqualFold n o = true) (allPrivileges row) names /\
    sql.issued (snd (grantDelete (grant.mkRequest [] st)
                       (snd (grantRead req db)))) =
    sql.issued (snd (grantRead req db)) ++
    [grant.revokeStmt (grant.GetModel req) names].
Proof using EqualFold_refl.
  intros Hd Hu Hq.
  exists (readState (grant.GetModel req) row),
         (grant.privilegesAsString (readState (grant.GetModel req) row)).
  rewrite (Read_run req db row s1 Hd Hu Hq). cbn [fst snd grant.State].
  split; [reflexivity|]. split.
  - rewrite privilegesAsString_map. unfold grant.readState.
    cbn [grant.Privileges]. rewrite reconcile_map.
    rewrite allPrivilegesStringValues_map.
    induction (allPrivileges row) as [|n l IH]; cbn [map]; constructor;
      [|exact IH].
    exact (emitted_matches EqualFold EqualFold_refl _ (types.StringValue n)).
  - rewrite Delete_run; [reflexivity | reflexivity | exact Hu].
Qed.

End Folding.

End GrantMore.

(** ** The audit rule resource, operation by operation *)

Section AuditMore.

Variable EqualFold : string -> string -> bool.
Variable Session : Type.
Variable driverExec : Session -> sql.Stmt -> error * Session.
Variable driverQueryOut :
  Session -> sql.Stmt -> (string + sql.NullInt16 * sql.NullString) * Session.
Variable driverQuery :
  Session -> sql.Stmt -> (string + list (string + audit.row.auditRuleRow)) * Session.
Variable driverQueryRule :
  Session -> sql.Stmt -> (string + audit.row.auditRuleRow) * Session.

Abbreviation auditCreate :=
  (audit.Create EqualFold Session driverExec driverQueryOut driverQuery).
Abbreviation auditRead := (audit.Read Session driverQueryOut driverQueryRule).
Abbreviation auditUpdate := (audit.Update Session driverExec driverQueryOut).
Abbreviation auditDelete := (audit.Delete Session driverExec driverQueryOut).

Ltac run_driver :=
  repeat match goal with
         | |- context [driverExec ?s ?q] =>
             destruct (driverExec s q) as [[?|] ?]
         | |- context [driverQueryOut ?s ?q] =>
             destruct (driverQueryOut s q) as [[?|[? ?]] ?]
         | |- context [driverQuery ?s ?q] =>
             destruct (driverQuery s q) as [[?|?] ?] eqn:?
         | |- context [driverQueryRule ?s ?q] =>
             destruct (driverQueryRule s q) as [[?|?] ?] eqn:?
         | |- context [Z.ltb 0 ?z] => destruct (Z.ltb 0 z) eqn:?
         | |- context [audit.scanRows ?f ?r ?p ?i] =>
             destruct (audit.scanRows f r p i) as [?|?] eqn:?
         | |- context [Z.eqb ?a ?b] => destruct (Z.eqb_spec a b)
         end.

Ltac unfold_audit :=
  unfold audit.Create, audit.Read, audit.Update, audit.Delete,
    audit.auditRuleStoredProcedureResponse, audit.ExecContext,
    audit.QueryContext, audit.QueryRowContext_Scan,
    audit.QueryRowContext_ScanRule, audit.failCreate, diag.Append,
    errors_New;
  cbn [app sql.session sql.issued].

(** X8: when the confirmation that follows the create call reports a
    positive status, [Create] fails with the session message and stops: the
    create call and its confirmation are the only statements issued, the
    listing is never asked for. *)
Theorem Create_stops_at_failed_confirmation (req : audit.Request)
    (db : sql.DB Session) (s1 s2 : Session) (ov : sql.NullInt16)
    (om : sql.NullString) :
  diag.HasError (audit.GetDiags req) = false ->
  driverExec (sql.session db) (audit.createStmt (audit.GetModel req))
    = (None, s1) ->
  driverQueryOut s1 audit.confirmStmt = (inr (ov, om), s2) ->
  (0 < sql.Int16 ov)%Z ->
  auditCreate req db =
  (audit.failCreate (audit.GetDiags req) (sql.String_ om),
   sql.mkDB s2 (sql.issued db ++
                [audit.createStmt (audit.GetModel req); audit.confirmStmt])).
Proof.
  intros Hd He Hc Hov. unfold_audit. rewrite Hd.
  fold (audit.createStmt (audit.GetModel req)). rewrite He.
  cbn [sql.session sql.issued]. fold audit.confirmStmt. rewrite Hc.
  apply Z.ltb_lt in Hov. rewrite Hov. cbn [sql.session sql.issued].
  now rewrite <- app_assoc.
Qed.


Lemma scanRows_sound (rows : list (string + audit.row.auditRuleRow))
    (plan : audit.auditRuleResourceModel) (id0 id : Z) :
  audit.scanRows EqualFold rows plan id0 = inr id ->
  id = id0 \/
  exists r, In (inr r) rows /\ audit.equalsModel EqualFold r plan = true /\
            audit.row.Id r = id.
Proof.
  induction rows as [|[e|r] rows IH]; simpl.
  - intros [= <-]. now left.
  - discriminate.
  - destruct (audit.equalsModel EqualFold r plan) eqn:E.
    + intros [= <-]. right. exists r. auto.
    + intros H. destruct (IH H) as [->|(r' & Hin & Hm & Hid)]; [now left|].
      right. exists r'. auto.
Qed.

(** X10: [Create] never invents an identifier. Whenever it writes a state,
    it added no error, the listing it asked for held a row that matches
    the plan in its five fields, the state carries that row's id, which is
    not -1, and the other fields are the plan's. *)
Theorem Create_persists_only_a_listed_match (req : audit.Request)
    (db : sql.DB Session) (m : audit.auditRuleResourceModel) :
  audit.State (fst (auditCreate req db)) = Some m ->
  let plan := audit.GetModel req in
  audit.Diagnostics (fst (auditCreate req db)) = audit.GetDiags req /\
  diag.HasError (audit.GetDiags req) = false /\
  exists r s s' rows,
    driverQuery s audit.listStmt = (inr rows, s') /\
    In (inr r) rows /\
    audit.fieldsMatch EqualFold r plan /\
    audit.row.Id r <> (-1)%Z /\
    m = audit.mkModel (types.Int64Value (audit.row.Id r)) (audit.User plan)
          (audit.Database plan) (audit.Object plan) (audit.Operation plan)
          (audit.OpsResult plan).
Proof.
  intros Hs plan. subst plan. revert Hs. unfold_audit.
  destruct (diag.HasError (audit.GetDiags req)) eqn:Hd;
    [cbn; discriminate|].
  run_driver; cbn [fst audit.State audit.Diagnostics]; try discriminate.
  intros [= <-]. split; [reflexivity|]. split; [reflexivity|].
  match goal with
  | H : audit.scanRows _ _ _ _ = inr _ |- _ =>
      destruct (scanRows_sound _ _ _ _ H) as [->|(r & Hin & Hm & <-)]
  end; [congruence|].
  match goal with
  | H : driverQuery ?s _ = (inr ?rows, ?s') |- _ =>
      exists r, s, s', rows
  end.
  split; [assumption|]. split; [assumption|].
  split; [now apply equalsModel_fieldsMatch|].
  split; [assumption | reflexivity].
Qed.

(** X11: [Create], [Read] and [Update] write a state exactly when they end
    without an error diagnostic, and [Update] then writes the plan, id
    included; [Delete] never writes one. *)
Theorem audit_writes_state_iff_no_error (req : audit.Request)
    (db : sql.DB Session) :
  (audit.State (fst (auditCreate req db)) <> None <->
   diag.HasError (audit.Diagnostics (fst (auditCreate req db))) = false) /\
  (audit.State (fst (auditRead req db)) <> None <->
   diag.HasError (audit.Diagnostics (fst (auditRead req db))) = false) /\
  (audit.State (fst (auditUpdate req db)) <> None <->
   diag.HasError (audit.Diagnostics (fst (auditUpdate req db))) = false) /\
  (forall m, audit.State (fst (auditUpdate req db)) = Some m ->
             m = audit.GetModel req) /\
  audit.State (fst (auditDelete req db)) = None.
Proof.
  repeat split; unfold_audit;
    destruct (diag.HasError (audit.GetDiags req)) eqn:Hd;
    cbn [fst audit.State audit.Diagnostics]; rewrite ?Hd;
    try congruence; try discriminate;
    run_driver; cbn [fst audit.State audit.Diagnostics];
    rewrite ?HasError_AddError, ?Hd; congruence.
Qed.

Hypothesis EqualFold_refl : forall s, EqualFold s s = true.

(** X12: what [Read] writes is the row it scanned, not the state it was
    given: every field is a known value taken from the row, id included,
    and the row matches the written state in the sense of [equalsModel],
    so the correlation of [Create] would pick this row for it. *)
Theorem Read_writes_the_scanned_row (req : audit.Request)
    (db : sql.DB Session) (m : audit.auditRuleResourceModel) :
  audit.State (fst (auditRead req db)) = Some m ->
  exists r s',
    driverQueryRule (sql.session db)
      (audit.readRuleStmt (types.ValueInt64 (audit.Id (audit.GetModel req))))
      = (inr r, s') /\
    m = audit.rowModel r /\
    audit.equalsModel EqualFold r m = true.
Proof using EqualFold_refl.
  unfold_audit. unfold audit.readRuleStmt.
  destruct (diag.HasError (audit.GetDiags req)); [cbn; discriminate|].
  run_driver; cbn [fst audit.State]; try discriminate.
  intros [= <-].
  match goal with
  | H : driverQueryRule _ _ = (inr ?r, ?s') |- _ => exists r, s'
  end.
  split; [reflexivity|]. split; [reflexivity|].
  unfold audit.equalsModel. cbn. now rewrite !EqualFold_refl.
Qed.

End AuditMore.

(** ** The role resource *)

Section RoleMore.

Variable Session : Type.
Variable driverExec : Session -> sql.Stmt -> error * Session.
Variable driverQuery : Session -> sql.Stmt -> (string + list string) * Session.

Abbreviation roleCreate := (role.Create Session driverExec).
Abbreviation roleRead := (role.Read Session driverQuery).
Abbreviation roleDelete := (role.Delete Session driverExec).

(** X13: [Read] takes a role to exist exactly when the listing of its
    grants has a first row: it writes the state, unchanged, if and only if
    the state decoded and the query returned at least one row, whatever
    the rows are; on an empty listing it adds "Role not found" and writes
    nothing. *)
Theorem role_Read_exists_iff_grants_listed (req : role.Request)
    (db : sql.DB Session) :
  (forall m,
     role.State (fst (roleRead req db)) = Some m <->
     diag.HasError (role.GetDiags req) = false /\
     m = role.GetModel req /\
     exists g rest s',
       driverQuery (sql.session db) (role.showGrantsStmt (role.GetModel req))
       = (inr (g :: rest), s')) /\
  (forall s',
     diag.HasError (role.GetDiags req) = false ->
     driverQuery (sql.session db) (role.showGrantsStmt (role.GetModel req))
       = (inr [], s') ->
     fst (roleRead req db) =
     role.mkResponse
       (role.GetDiags req ++
        [diag.mkDiagnostic diag.SeverityError "Role not found"
           ("Could not read role " +:+
            types.ValueString (role.Name (role.GetModel req)))])
       None).
Proof.
  unfold role.Read, role.QueryContext, role.showGrantsStmt, diag.Append.
  cbn [app]. split.
  - intros m.
    destruct (diag.HasError (role.GetDiags req));
      [cbn; intuition discriminate|].
    destruct (driverQuery _ _) as [[e|[|g rest]] s1]; cbn; split;
      try (intros H; discriminate H).
    + intros (_ & _ & g & rest & s' & H). discriminate.
    + intros (_ & _ & g & rest & s' & H). discriminate.
    + intros [= <-]. eauto 7.
    + intros (_ & -> & _). reflexivity.
  - intros s' -> ->. reflexivity.
Qed.

(** X14: [Create] and [Delete] issue nothing when the model did not
    decode and otherwise exactly one statement, CREATE ROLE or DROP ROLE
    with the name between single quotes; [Create] writes the plan if and
    only if the driver accepted its statement, [Delete] writes nothing. *)
Theorem role_Create_Delete_single_statement (req : role.Request)
    (db : sql.DB Session) :
  let m := role.GetModel req in
  sql.issued (snd (roleCreate req db)) =
    (if diag.HasError (role.GetDiags req) then sql.issued db
     else sql.issued db ++ [role.createRoleStmt m]) /\
  sql.issued (snd (roleDelete req db)) =
    (if diag.HasError (role.GetDiags req) then sql.issued db
     else sql.issued db ++ [role.dropRoleStmt m]) /\
  (forall m',
     role.State (fst (roleCreate req db)) = Some m' <->
     diag.HasError (role.GetDiags req) = false /\ m' = m /\
     exists s', driverExec (sql.session db) (role.createRoleStmt m) = (None, s')) /\
  role.State (fst (roleDelete req db)) = None.
Proof.
  intros m. subst m.
  unfold role.Create, role.Delete, role.ExecContext, role.createRoleStmt,
    role.dropRoleStmt, diag.Append. cbn [app].
  destruct (diag.HasError (role.GetDiags req)).
  { cbn. repeat split; try reflexivity; try discriminate.
    intros (H & _). discriminate H. }
  destruct (driverExec _ (String.append "CREATE ROLE '" _, _)) as [[e1|] s1];
    destruct (driverExec _ _) as [[e2|] s2]; cbn;
    (split; [reflexivity|]); (split; [reflexivity|]);
    (split; [|reflexivity]); intros m'; split;
    try discriminate;
    try (intros (_ & _ & s' & H); discriminate H);
    try (intros [= <-]; repeat split; eauto);
    try (intros (_ & -> & _); reflexivity).
Qed.

End RoleMore.

(** ** The database data source *)

Section DataSourceMore.

Variable Session : Type.
Variable driverQueryRow :
  Session -> sql.Stmt ->
  (datasource.ScanError + string * string * string) * Session.

Abbreviation dataRead := (datasource.Read Session driverQueryRow).

(** X15: [Read] does not look at the diagnostics of decoding its
    configuration: in every run it issues the one SCHEMATA query for the
    configured name, and it writes a state if and only if a row came back,
    holding the name, character set and collation of that row as known
    values. *)
Theorem datasource_Read_queries_always (req : datasource.Request)
    (db : sql.DB Session) :
  sql.issued (snd (dataRead req db)) =
    sql.issued db ++ [datasource.schemataStmt (datasource.GetModel req)] /\
  (forall m,
     datasource.State (fst (dataRead req db)) = Some m <->
     exists name cs co s',
       driverQueryRow (sql.session db)
         (datasource.schemataStmt (datasource.GetModel req))
       = (inr (name, cs, co), s') /\
       m = datasource.mkModel (types.StringValue name) (types.StringValue cs)
             (types.StringValue co)).
Proof.
  unfold datasource.Read, datasource.QueryRowContext_Scan,
    datasource.schemataStmt, diag.Append. cbn [app].
  destruct (driverQueryRow _ _) as [[[|msg]|[[name cs] co]] s1]; cbn;
    (split; [reflexivity|]); intros m; split;
    try (intros H; discriminate H);
    try (intros (? & ? & ? & ? & H & _); discriminate H).
  - intros [= <-]. eauto 7.
  - intros (? & ? & ? & ? & [= <- <- <- _] & ->). reflexivity.
Qed.

(** X16: a scan that ends with [sql.ErrNoRows] is reported as
    "Database not found" for the configured name; every other scan error
    is reported as a read error carrying the error's text. In both cases
    the diagnostic comes after those of decoding and no state is
    written. *)
Theorem datasource_Read_reports_missing_database (req : datasource.Request)
    (db : sql.DB Session) (err : datasource.ScanError) (s' : Session) :
  driverQueryRow (sql.session db)
    (datasource.schemataStmt (datasource.GetModel req)) = (inl err, s') ->
  let database := types.ValueString (datasource.Name (datasource.GetModel req)) in
  datasource.State (fst (dataRead req db)) = None /\
  datasource.Diagnostics (fst (dataRead req db)) =
  datasource.GetDiags req ++
  [match err with
   | datasource.ErrNoRows =>
       diag.mkDiagnostic diag.SeverityError "Database not found"
         ("Database '" +:+ database +:+ "' not found")
   | datasource.ErrOther msg =>
       diag.mkDiagnostic diag.SeverityError
         "Error reading the the database information"
         ("Could not read the database information of '" +:+ database +:+
          "', unexpected error: " +:+ msg)
   end].
Proof.
  intros Hq database. subst database.
  unfold datasource.Read, datasource.QueryRowContext_Scan, diag.Append.
  cbn [app]. fold (datasource.schemataStmt (datasource.GetModel req)).
  rewrite Hq. destruct err; cbn; auto.
Qed.

End DataSourceMore.

(** ** The connection registry over many calls *)

Section RegistryMore.

Variable World : Type.
Variable driverOpen : World -> string -> string -> (string + config.Handle) * World.

Abbreviation connect := (config.connectToMySQL World driverOpen).
Abbreviation connectAll := (config.connectAll World driverOpen).

Lemma connect_keeps_entries (c : config.Config) (d : config.Driver World)
    (dsn k : string) (h : config.Handle) :
  config.dbRegistry c !! k = Some h ->
  config.dbRegistry (snd (fst (connect c d dsn))) !! k = Some h.
Proof.
  intros Hk. unfold config.connectToMySQL.
  destruct (config.dbRegistry c !! dsn) as [h0|] eqn:Hlook; [exact Hk|].
  unfold config.sql_Open.
  destruct (driverOpen _ _ _) as [[err|db] w]; cbn; [exact Hk|].
  rewrite lookup_insert_ne; [exact Hk|]. intros ->. congruence.
Qed.

Lemma connectAll_keeps_entries (dsns : list string) :
  forall (c : config.Config) (d : config.Driver World) (k : string)
         (h : config.Handle),
    config.dbRegistry c !! k = Some h ->
    config.dbRegistry (fst (connectAll c d dsns)) !! k = Some h.
Proof.
  induction dsns as [|dsn rest IH]; intros c d k h Hk; [exact Hk|].
  cbn [config.connectAll].
  pose proof (connect_keeps_entries c d dsn k h Hk) as H1.
  destruct (connect c d dsn) as [[r c1] d1]. cbn in H1.
  now apply IH.
Qed.

(** X17: a call never evicts or replaces a handle and touches no key but
    its own: every entry of the registry is still there afterwards, the
    lookups of all other strings are as before, the template is kept, and
    [sql.Open] was called at most once, for the requested string, and not
    at all when the string already had a handle. *)
Theorem connectToMySQL_only_adds_its_own_entry (c : config.Config)
    (d : config.Driver World) (dsn : string) :
  let c' := snd (fst (connect c d dsn)) in
  let d' := snd (connect c d dsn) in
  (forall k h, config.dbRegistry c !! k = Some h ->
               config.dbRegistry c' !! k = Some h) /\
  (forall k, k <> dsn -> config.dbRegistry c' !! k = config.dbRegistry c !! k) /\
  config.dsnTemplate c' = config.dsnTemplate c /\
  (config.opened d' = config.opened d \/
   config.opened d' = config.opened d ++ [("cloudsql-mysql", dsn)]) /\
  (is_Some (config.dbRegistry c !! dsn) -> c' = c /\ d' = d).
Proof.
  intros c' d'. split.
  { intros k h. apply connect_keeps_entries. }
  subst c' d'. unfold config.connectToMySQL.
  destruct (config.dbRegistry c !! dsn) as [h0|] eqn:Hlook.
  { cbn. split; [auto|]. split; [auto|]. split; auto. }
  assert (Hnot : is_Some (@None config.Handle) ->
                 forall P : Prop, P) by (intros [? ?]; discriminate).
  unfold config.sql_Open.
  destruct (driverOpen _ _ _) as [[err|db] w]; cbn.
  - split; [auto|]. split; [auto|]. split; [auto|].
    intros H. now apply Hnot.
  - split; [intros k Hk; now rewrite lookup_insert_ne|].
    split; [auto|]. split; [auto|]. intros H. now apply Hnot.
Qed.

(** X18: a call returns either a handle and no error, and then this handle
    is the registry's entry for the string, or no handle and an error;
    never neither, never both. *)
Theorem connectToMySQL_handle_xor_error (c : config.Config)
    (d : config.Driver World) (dsn : string) :
  let res := fst (fst (connect c d dsn)) in
  let c' := snd (fst (connect c d dsn)) in
  (exists h, res = (Some h, None) /\ config.dbRegistry c' !! dsn = Some h) \/
  (exists e, res = (None, Some e) /\ config.dbRegistry c' !! dsn = None).
Proof.
  intros res c'. subst res c'. unfold config.connectToMySQL.
  destruct (config.dbRegistry c !! dsn) as [h0|] eqn:Hlook.
  { left. exists h0. cbn. auto. }
  unfold config.sql_Open.
  destruct (driverOpen _ _ _) as [[err|db] w]; cbn.
  - right. exists err. auto.
  - left. exists db. rewrite lookup_insert_eq. auto.
Qed.

(** X19: a handle once returned for a string is returned for it ever
    after: whatever calls are made in between, for this or for other
    strings, succeeding or failing, the next call for the string returns
    the same handle and calls [sql.Open] no more. *)
Theorem connectToMySQL_same_handle_after_any_calls (c : config.Config)
    (d : config.Driver World) (dsn : string) (between : list string)
    (h : config.Handle) (c1 : config.Config) (d1 : config.Driver World) :
  connect c d dsn = ((Some h, None), c1, d1) ->
  let c2 := fst (connectAll c1 d1 between) in
  let d2 := snd (connectAll c1 d1 between) in
  connect c2 d2 dsn = ((Some h, None), c2, d2).
Proof.
  intros H1 c2 d2. apply connect_cached. subst c2.
  apply connectAll_keeps_entries.
  revert H1. unfold config.connectToMySQL.
  destruct (config.dbRegistry c !! dsn) as [h0|] eqn:Hlook.
  - intros [= <- <- <-]. exact Hlook.
  - unfold config.sql_Open.
    destruct (driverOpen _ _ _) as [[err|db] w]; [discriminate|].
    cbn. rewrite lookup_insert_eq. intros [= <- <- <-]. cbn.
    apply lookup_insert_eq.
Qed.

(** X20: a failure is not remembered: after a failed call the next call
    for the same string asks [sql.Open] again, and if that succeeds the
    new handle is returned and registered. *)
Theorem connectToMySQL_retries_after_failure (c : config.Config)
    (d : config.Driver World) (dsn e : string) (c' : config.Config)
    (d' : config.Driver World) (h : config.Handle) (w : World) :
  connect c d dsn = ((None, Some e), c', d') ->
  driverOpen (config.world d') "cloudsql-mysql" dsn = (inr h, w) ->
  connect c' d' dsn =
  ((Some h, None),
   config.mkConfig (config.dsnTemplate c) (<[dsn := h]> (config.dbRegistry c)),
   config.mkDriver w (config.opened d' ++ [("cloudsql-mysql", dsn)])).
Proof.
  unfold config.connectToMySQL at 1.
  destruct (config.dbRegistry c !! dsn) as [h0|] eqn:Hlook; [discriminate|].
  unfold config.sql_Open.
  destruct (driverOpen (config.world d) _ _) as [[err|db] w0]; [|discriminate].
  intros [= <- <- <-] Hopen.
  unfold config.connectToMySQL, config.sql_Open. rewrite Hlook.
  cbn [config.world]. cbn [config.world config.opened] in *.
  rewrite Hopen. cbn. now rewrite lookup_insert_eq.
Qed.

End RegistryMore.

(** ** The provider's configuration *)

Lemma provider_HasError_AddAttributeError (ds : provider.Diagnostics)
    (path summ det : string) :
  provider.HasError (provider.AddAttributeError ds path summ det) = true.
Proof.
  unfold provider.HasError, provider.AddAttributeError.
  rewrite existsb_app. cbn. apply orb_true_r.
Qed.

Lemma provider_HasError_AddError (ds : provider.Diagnostics)
    (summ det : string) :
  provider.HasError (provider.AddError ds summ det) = true.
Proof.
  unfold provider.HasError, provider.AddError.
  rewrite existsb_app. cbn. apply orb_true_r.
Qed.

Lemma provider_HasError_addIf (cond : bool) (ds : provider.Diagnostics)
    (path summ det : string) :
  provider.HasError (provider.addAttributeErrorIf cond ds path summ det) =
  cond || provider.HasError ds.
Proof.
  unfold provider.addAttributeErrorIf. destruct cond; [|reflexivity].
  apply provider_HasError_AddAttributeError.
Qed.

Lemma Configure_ResourceData (req : provider.Request)
    (cfg : config.Config) :
  let m := provider.GetModel req in
  (provider.ResourceData (provider.Configure req) = Some cfg <->
   provider.HasError (provider.GetDiags req) = false /\
   provider.IsUnknown (provider.ConnectionName m) = false /\
   provider.IsUnknown (provider.Username m) = false /\
   provider.IsUnknown (provider.Password m) = false /\
   provider.connectionNameOf req <> "" /\
   provider.usernameOf req <> "" /\
   provider.passwordOf req <> "" /\
   cfg = config.newConfig
           (provider.usernameOf req +:+ ":" +:+ provider.passwordOf req +:+
            "@cloudsql-mysql(" +:+ provider.connectionNameOf req +:+
            ")/%s?parseTime=true")) /\
  provider.DataSourceData (provider.Configure req) =
  provider.ResourceData (provider.Configure req).
Proof.
  intros m. subst m.
  unfold provider.Configure. cbn [app].
  fold (provider.resolve (provider.ConnectionName (provider.GetModel req))
          (provider.Getenv req "CLOUDSQL_MYSQL_CONNECTION_NAME")).
  fold (provider.resolve (provider.Username (provider.GetModel req))
          (provider.Getenv req "CLOUDSQL_MYSQL_USERNAME")).
  fold (provider.resolve (provider.Password (provider.GetModel req))
          (provider.Getenv req "CLOUDSQL_MYSQL_PASSWORD")).
  fold (provider.connectionNameOf req) (provider.usernameOf req)
    (provider.passwordOf req).
  rewrite !provider_HasError_addIf.
  destruct (provider.HasError (provider.GetDiags req)) eqn:Hd.
  { cbn. split; [|reflexivity]. split; [discriminate|].
    intros (H & _). discriminate H. }
  rewrite !orb_false_r.
  destruct (provider.IsUnknown (provider.ConnectionName (provider.GetModel req)));
  destruct (provider.IsUnknown (provider.Username (provider.GetModel req)));
  destruct (provider.IsUnknown (provider.Password (provider.GetModel req)));
    cbn [orb];
    try (cbn; split; [|reflexivity]; split; [discriminate|];
         intros (_ & H1 & H2 & H3 & _); discriminate).
  destruct (String.eqb_spec (provider.connectionNameOf req) ""),
    (String.eqb_spec (provider.usernameOf req) ""),
    (String.eqb_spec (provider.passwordOf req) "");
    cbn [orb provider.ResourceData provider.DataSourceData];
    (split; [|reflexivity]); split;
    try discriminate;
    try (intros (_ & _ & _ & _ & H1 & H2 & H3 & _); congruence).
  - intros [= <-]. repeat split; auto.
  - intros (_ & _ & _ & _ & _ & _ & _ & ->). reflexivity.
Qed.

(** X21: [Configure] hands a registry to resources and data sources
    exactly when the configuration decoded, none of connection name,
    username and password is unknown, and each of them, taken from the
    configuration unless null and else from its environment variable, is
    non-empty. The registry is then empty and its template is
    username:password@cloudsql-mysql(connection)/%s?parseTime=true. A
    configured empty string is not replaced by the environment's value. *)
Theorem Configure_hands_out_config_iff (req : provider.Request)
    (cfg : config.Config) :
  let m := provider.GetModel req in
  (provider.ResourceData (provider.Configure req) = Some cfg <->
   provider.HasError (provider.GetDiags req) = false /\
   provider.IsUnknown (provider.ConnectionName m) = false /\
   provider.IsUnknown (provider.Username m) = false /\
   provider.IsUnknown (provider.Password m) = false /\
   provider.connectionNameOf req <> "" /\
   provider.usernameOf req <> "" /\
   provider.passwordOf req <> "" /\
   cfg = config.newConfig
           (provider.usernameOf req +:+ ":" +:+ provider.passwordOf req +:+
            "@cloudsql-mysql(" +:+ provider.connectionNameOf req +:+
            ")/%s?parseTime=true")) /\
  provider.DataSourceData (provider.Configure req) =
  provider.ResourceData (provider.Configure req).
Proof. apply Configure_ResourceData. Qed.

(** X22: the registration of the driver does not gate the result: with a
    configuration that passes the checks, [Configure] registers the
    cloudsql-mysql driver and hands out the registry even when the
    registration fails; the failure only shows as an error diagnostic.
    [Configure] ends without an error exactly when it registered the
    driver successfully. *)
Theorem Configure_reports_registration_failure (req : provider.Request) :
  let resp := provider.Configure req in
  (provider.ResourceData resp <> None <-> provider.Registered resp <> None) /\
  (provider.HasError (provider.Diagnostics_ resp) = false <->
   exists options,
     provider.Registered resp = Some ("cloudsql-mysql", options) /\
     provider.RegisterDriver req "cloudsql-mysql" options = None) /\
  (forall options e,
     provider.Registered resp = Some ("cloudsql-mysql", options) ->
     provider.RegisterDriver req "cloudsql-mysql" options = Some e ->
     provider.ResourceData resp <> None /\
     provider.HasError (provider.Diagnostics_ resp) = true).
Proof.
  intros resp. subst resp. unfold provider.Configure. cbn [app].
  rewrite !provider_HasError_addIf.
  set (c := if negb (types.IsNull (provider.ConnectionName (provider.GetModel req)))
            then _ else _).
  set (u := if negb (types.IsNull (provider.Username (provider.GetModel req)))
            then _ else _).
  set (p := if negb (types.IsNull (provider.Password (provider.GetModel req)))
            then _ else _).
  set (options := if negb (types.IsNull (provider.Proxy (provider.GetModel req)))
                  then _ else _).
  destruct (provider.HasError (provider.GetDiags req)) eqn:Hd.
  { cbn [provider.ResourceData provider.Registered provider.Diagnostics_].
    rewrite Hd. repeat split; try congruence.
    intros (o & H & _). discriminate H. }
  destruct (provider.IsUnknown (provider.ConnectionName (provider.GetModel req)));
  destruct (provider.IsUnknown (provider.Username (provider.GetModel req)));
  destruct (provider.IsUnknown (provider.Password (provider.GetModel req)));
    cbn [orb];
    try (cbn [provider.ResourceData provider.Registered provider.Diagnostics_];
         rewrite !provider_HasError_addIf, ?Hd; cbn [orb];
         repeat split; try congruence;
         intros (o & H & _); discriminate H).
  destruct (String.eqb c ""), (String.eqb u ""), (String.eqb p "");
    cbn [orb];
    try (cbn [provider.ResourceData provider.Registered provider.Diagnostics_];
         rewrite !provider_HasError_addIf, ?Hd; cbn [orb];
         repeat split; try congruence;
         intros (o & H & _); discriminate H).
  cbn [provider.ResourceData provider.Registered provider.Diagnostics_].
  split; [split; congruence|]. split.
  - destruct (provider.RegisterDriver req "cloudsql-mysql" options) eqn:Hr.
    + rewrite provider_HasError_AddError. split; [discriminate|].
      intros (o & [= <-] & H). congruence.
    + rewrite !provider_HasError_addIf, Hd. cbn [orb]. split; [|reflexivity].
      intros _. exists options. auto.
  - intros o e [= <-] Hr. rewrite Hr, provider_HasError_AddError.
    split; congruence.
Qed.

(** ** From the provider's settings to the data source name *)

Lemma append_cons (x : ascii) (a b : string) :
  String x a +:+ b = String x (a +:+ b).
Proof. reflexivity. Qed.

Lemma append_assoc (a b c : string) : (a +:+ b) +:+ c = a +:+ b +:+ c.
Proof.
  induction a as [|x a IH]; [reflexivity|].
  rewrite !append_cons. f_equal. exact IH.
Qed.

Lemma noPercent_append (a b : string) :
  noPercent (a +:+ b) = noPercent a && noPercent b.
Proof.
  induction a as [|x a IH]; [reflexivity|].
  rewrite append_cons. cbn [noPercent]. now rewrite IH, andb_assoc.
Qed.

Lemma sprintf_s_one_verb (pre post arg : string) :
  noPercent pre = true -> noPercent post = true ->
  sprintf_s (pre +:+ "%s" +:+ post) arg = pre +:+ arg +:+ post.
Proof.
  intros Hpre _. change ("%s" +:+ post) with (String "%" (String "s" post)).
  induction pre as [|x pre IH]; [reflexivity|].
  cbn [noPercent] in Hpre. apply andb_prop in Hpre.
  destruct Hpre as [Hx Hpre]. apply negb_true_iff in Hx.
  rewrite !append_cons. cbn [sprintf_s]. rewrite Hx. f_equal. now apply IH.
Qed.

Section DataSourceNames.

Variable World : Type.
Variable driverOpen : World -> string -> string -> (string + config.Handle) * World.

(** [fmt.Sprintf] with one argument; of Go's function the property below
    uses that text without a percent sign is copied and [%s] is replaced
    by the argument. *)
Variable fmt_Sprintf : string -> string -> string.
Hypothesis fmt_Sprintf_one_verb :
  forall pre post arg,
    noPercent pre = true -> noPercent post = true ->
    fmt_Sprintf (pre +:+ "%s" +:+ post) arg = pre +:+ arg +:+ post.

Abbreviation connectDb := (config.connectToMySQLDb World driverOpen fmt_Sprintf).

(** X23: with a username, password and connection name free of percent
    signs, the first connection that a resource asks of the registry
    handed out by [Configure] opens the cloudsql-mysql driver once, on
    username:password@cloudsql-mysql(connection)/database?parseTime=true. *)
Theorem Configure_registry_dials_data_source_name (req : provider.Request)
    (cfg : config.Config) (d : config.Driver World) (dbName : string) :
  provider.ResourceData (provider.Configure req) = Some cfg ->
  noPercent (provider.usernameOf req) = true ->
  noPercent (provider.passwordOf req) = true ->
  noPercent (provider.connectionNameOf req) = true ->
  config.opened (snd (connectDb cfg d dbName)) =
  config.opened d ++
  [("cloudsql-mysql",
    provider.dataSourceName (provider.usernameOf req) (provider.passwordOf req)
      (provider.connectionNameOf req) dbName)].
Proof using fmt_Sprintf_one_verb.
  intros Hcfg Hu Hp Hc.
  apply Configure_ResourceData in Hcfg.
  destruct Hcfg as (_ & _ & _ & _ & _ & _ & _ & ->).
  unfold config.connectToMySQLDb, config.connectToMySQL, config.newConfig.
  cbn [config.dsnTemplate config.dbRegistry]. rewrite lookup_empty.
  unfold config.sql_Open.
  set (u := provider.usernameOf req) in *.
  set (p := provider.passwordOf req) in *.
  set (c := provider.connectionNameOf req) in *.
  replace (u +:+ ":" +:+ p +:+ "@cloudsql-mysql(" +:+ c +:+ ")/%s?parseTime=true")
    with ((u +:+ ":" +:+ p +:+ "@cloudsql-mysql(" +:+ c +:+ ")/") +:+
          "%s" +:+ "?parseTime=true")
    by (rewrite !append_assoc; reflexivity).
  rewrite fmt_Sprintf_one_verb.
  - destruct (driverOpen _ _ _) as [[e|h] w]; cbn;
      unfold provider.dataSourceName; rewrite !append_assoc; reflexivity.
  - rewrite !noPercent_append, Hu, Hp, Hc. reflexivity.
  - reflexivity.
Qed.

End DataSourceNames.

(** ** The further properties on concrete sessions *)

Lemma Read_twice_writes_same_state_witness :
  exists st,
    grant.State (fst (cannedRead (grant.mkRequest [] aliceState)
                        (sql.open (mkCannedGrants (Some selectInsertRow)))))
      = Some st /\
    grant.State
      (fst (cannedRead (grant.mkRequest [] st)
              (snd (cannedRead (grant.mkRequest [] aliceState)
                      (sql.open (mkCannedGrants (Some selectInsertRow)))))))
      = Some st.
Proof.
  exact (Read_twice_writes_same_state asciiEqualFold cannedGrants
           cannedGrantQueryRow asciiEqualFold_refl asciiEqualFold_sym
           asciiEqualFold_trans asciiEqualFold_on_ascii
           (grant.mkRequest [] aliceState)
           (sql.open (mkCannedGrants (Some selectInsertRow)))
           selectInsertRow _ _ eq_refl eq_refl eq_refl eq_refl).
Defined.

Lemma Delete_after_Read_revokes_row_privileges_witness :
  exists st names,
    grant.State (fst (cannedRead (grant.mkRequest [] aliceState)
                        (sql.open (mkCannedGrants (Some selectInsertRow)))))
      = Some st /\
    Forall2 (fun o n => asciiEqualFold n o = true)
            (allPrivileges selectInsertRow) names /\
    sql.issued
      (snd (grant.Delete cannedGrants cannedGrantExec (grant.mkRequest [] st)
              (snd (cannedRead (grant.mkRequest [] aliceState)
                      (sql.open (mkCannedGrants (Some selectInsertRow)))))))
    = sql.issued (snd (cannedRead (grant.mkRequest [] aliceState)
                         (sql.open (mkCannedGrants (Some selectInsertRow)))))
      ++ [grant.revokeStmt aliceState names].
Proof.
  exact (Delete_after_Read_revokes_row_privileges asciiEqualFold cannedGrants
           cannedGrantExec cannedGrantQueryRow asciiEqualFold_refl
           (grant.mkRequest [] aliceState)
           (sql.open (mkCannedGrants (Some selectInsertRow)))
           selectInsertRow _ eq_refl eq_refl eq_refl).
Defined.

Lemma Create_stops_at_failed_confirmation_witness :
  cannedCreate exampleRequest (cannedDB 1 "rule rejected" [matchingRule 7]) =
  (audit.failCreate [] "rule rejected",
   sql.mkDB (audit.mkCanned (sql.mkNullInt16 1 true)
               (sql.mkNullString "rule rejected" true) [matchingRule 7])
     [audit.createStmt examplePlan; audit.confirmStmt]).
Proof.
  refine (Create_stops_at_failed_confirmation asciiEqualFold
            audit.cannedSession audit.cannedExec audit.cannedQueryOut
            audit.cannedQuery exampleRequest
            (cannedDB 1 "rule rejected" [matchingRule 7])
            _ _ _ _ eq_refl eq_refl eq_refl _).
  simpl. lia.
Defined.

Lemma Create_persists_only_a_listed_match_witness :
  audit.Diagnostics
    (fst (cannedCreate exampleRequest
            (cannedDB 0 "" [otherRule; matchingRule 7]))) = [] /\
  diag.HasError [] = false /\
  exists r s s' rows,
    audit.cannedQuery s audit.listStmt = (inr rows, s') /\
    In (inr r) rows /\
    audit.fieldsMatch asciiEqualFold r examplePlan /\
    audit.row.Id r <> (-1)%Z /\
    audit.mkModel (types.Int64Value 7) (types.StringValue "alice")
      (types.StringValue "app") (types.StringValue "orders")
      (types.StringValue "select") (types.StringValue "B")
    = audit.mkModel (types.Int64Value (audit.row.Id r))
        (audit.User examplePlan) (audit.Database examplePlan)
        (audit.Object examplePlan) (audit.Operation examplePlan)
        (audit.OpsResult examplePlan).
Proof.
  exact (Create_persists_only_a_listed_match asciiEqualFold
           audit.cannedSession audit.cannedExec audit.cannedQueryOut
           audit.cannedQuery exampleRequest
           (cannedDB 0 "" [otherRule; matchingRule 7]) _ eq_refl).
Defined.

Lemma Read_writes_the_scanned_row_witness :
  exists r s',
    cannedQueryRule
      (sql.session (cannedDB 0 "" [matchingRule 7]))
      (audit.readRuleStmt 0) = (inr r, s') /\
    audit.rowModel (matchingRule 7) = audit.rowModel r /\
    audit.equalsModel asciiEqualFold r (audit.rowModel (matchingRule 7)) = true.
Proof.
  exact (Read_writes_the_scanned_row asciiEqualFold audit.cannedSession
           audit.cannedQueryOut cannedQueryRule asciiEqualFold_refl
           exampleRequest (cannedDB 0 "" [matchingRule 7]) _ eq_refl).
Defined.

Lemma role_Read_exists_iff_grants_listed_witness :
  fst (role.Read (list string) cannedRoleQuery (role.mkRequest [] adminRole)
         (sql.open [])) =
  role.mkResponse
    [diag.mkDiagnostic diag.SeverityError "Role not found"
       "Could not read role admin"] None.
Proof.
  exact (proj2 (role_Read_exists_iff_grants_listed (list string)
                  cannedRoleQuery (role.mkRequest [] adminRole) (sql.open []))
               [] eq_refl eq_refl).
Defined.

Lemma datasource_Read_reports_missing_database_witness :
  datasource.State
    (fst (datasource.Read _ cannedSchemata (datasource.mkRequest [] appDatabase)
            (sql.open None))) = None /\
  datasource.Diagnostics
    (fst (datasource.Read _ cannedSchemata (datasource.mkRequest [] appDatabase)
            (sql.open None))) =
  [diag.mkDiagnostic diag.SeverityError "Database not found"
     "Database 'app' not found"].
Proof.
  exact (datasource_Read_reports_missing_database _ cannedSchemata
           (datasource.mkRequest [] appDatabase) (sql.open None)
           datasource.ErrNoRows None eq_refl).
Defined.

Lemma connectToMySQL_only_adds_its_own_entry_witness :
  config.dbRegistry
    (snd (fst (config.connectToMySQL positive freshOpen
                 (config.mkConfig "%s" {[ "a" := 7%positive ]})
                 (config.mkDriver 1%positive []) "b"))) !! "a"
  = Some 7%positive.
Proof.
  exact (proj1 (connectToMySQL_only_adds_its_own_entry positive freshOpen
                  (config.mkConfig "%s" {[ "a" := 7%positive ]})
                  (config.mkDriver 1%positive []) "b")
               "a" 7%positive eq_refl).
Defined.

Lemma connectToMySQL_same_handle_after_any_calls_witness :
  config.connectToMySQL positive freshOpen
    (fst (config.connectAll positive freshOpen
            (config.mkConfig "%s" {[ "a" := 1%positive ]})
            (config.mkDriver 2%positive [("cloudsql-mysql", "a")])
            ["b"; "a"; "c"]))
    (snd (config.connectAll positive freshOpen
            (config.mkConfig "%s" {[ "a" := 1%positive ]})
            (config.mkDriver 2%positive [("cloudsql-mysql", "a")])
            ["b"; "a"; "c"]))
    "a"
  = ((Some 1%positive, None),
     fst (config.connectAll positive freshOpen
            (config.mkConfig "%s" {[ "a" := 1%positive ]})
            (config.mkDriver 2%positive [("cloudsql-mysql", "a")])
            ["b"; "a"; "c"]),
     snd (config.connectAll positive freshOpen
            (config.mkConfig "%s" {[ "a" := 1%positive ]})
            (config.mkDriver 2%positive [("cloudsql-mysql", "a")])
            ["b"; "a"; "c"])).
Proof.
  exact (connectToMySQL_same_handle_after_any_calls positive freshOpen
           (config.newConfig "%s") (config.mkDriver 1%positive []) "a"
           ["b"; "a"; "c"] 1%positive _ _ eq_refl).
Defined.

Lemma connectToMySQL_retries_after_failure_witness :
  config.connectToMySQL bool flakyOpen (config.newConfig "%s")
    (config.mkDriver true [("cloudsql-mysql", "a")]) "a"
  = ((Some 1%positive, None),
     config.mkConfig "%s" (<["a" := 1%positive]> ∅),
     config.mkDriver true [("cloudsql-mysql", "a"); ("cloudsql-mysql", "a")]).
Proof.
  exact (connectToMySQL_retries_after_failure bool flakyOpen
           (config.newConfig "%s") (config.mkDriver false []) "a"
           "dial tcp: connection refused" _ _ 1%positive true
           eq_refl eq_refl).
Defined.

Lemma Configure_reports_registration_failure_witness :
  provider.ResourceData (provider.Configure envProviderRequest) <> None /\
  provider.HasError
    (provider.Diagnostics_ (provider.Configure envProviderRequest)) = true.
Proof.
  exact (proj2 (proj2 (Configure_reports_registration_failure
                         envProviderRequest))
               [provider.WithDefaultDialOptions []] _ eq_refl eq_refl).
Defined.

Lemma Configure_registry_dials_data_source_name_witness :
  config.opened
    (snd (config.connectToMySQLDb positive freshOpen sprintf_s
            (config.newConfig
               "root:password@cloudsql-mysql(project:region:instance)/%s?parseTime=true")
            (config.mkDriver 1%positive []) "")) =
  [("cloudsql-mysql",
    "root:password@cloudsql-mysql(project:region:instance)/?parseTime=true")].
Proof.
  exact (Configure_registry_dials_data_source_name positive freshOpen
           sprintf_s sprintf_s_one_verb exampleProviderRequest _
           (config.mkDriver 1%positive []) "" eq_refl eq_refl eq_refl eq_refl).
Defined.

(** ** Resources configured from one registry *)

Section SharedHandle.

Variable World : Type.
Variable driverOpen : World -> string -> string -> (string + config.Handle) * World.
Variable fmt_Sprintf : string -> string -> string.

Abbreviation resourceConfigure :=
  (configure.Configure World driverOpen fmt_Sprintf).

(** X24: the audit rule resource and the data source share one
    connection: when one of them has been configured from the provider's
    registry and holds a handle, configuring the other from the same
    registry gives it the same handle, without an error and without
    another [sql.Open], whatever handle it held before. *)
Theorem Configure_shares_the_handle (db1 db2 : option config.Handle)
    (c c1 : config.Config) (d d1 : config.Driver World) (h : config.Handle) :
  resourceConfigure db1 configure.ConfigData c d = ([], Some h, c1, d1) ->
  resourceConfigure db2 configure.ConfigData c1 d1 = ([], Some h, c1, d1).
Proof.
  unfold configure.Configure, config.connectToMySQLDb.
  set (dsn := fmt_Sprintf (config.dsnTemplate c) "").
  intros H.
  assert (Hc : config.dbRegistry c1 !! dsn = Some h /\
               config.dsnTemplate c1 = config.dsnTemplate c).
  { revert H. unfold config.connectToMySQL.
    destruct (config.dbRegistry c !! dsn) as [h0|] eqn:Hlook.
    - intros [= <- <- <-]. auto.
    - unfold config.sql_Open.
      destruct (driverOpen _ _ _) as [[e|h1] w]; [discriminate|].
      cbn [config.dbRegistry]. rewrite lookup_insert_eq.
      intros [= <- <- <-]. cbn. split; [apply lookup_insert_eq | reflexivity]. }
  destruct Hc as [Hreg Ht]. rewrite Ht. fold dsn.
  now rewrite (connect_cached World driverOpen c1 d1 dsn h Hreg).
Qed.

End SharedHandle.

Lemma Configure_shares_the_handle_witness :
  configure.Configure positive freshOpen sprintf_s None configure.ConfigData
    (config.mkConfig exampleDsn
       (<[sprintf_s exampleDsn "" := 1%positive]> ∅))
    (config.mkDriver 2%positive [("cloudsql-mysql", sprintf_s exampleDsn "")])
  = ([], Some 1%positive,
     config.mkConfig exampleDsn
       (<[sprintf_s exampleDsn "" := 1%positive]> ∅),
     config.mkDriver 2%positive [("cloudsql-mysql", sprintf_s exampleDsn "")]).
Proof.
  exact (Configure_shares_the_handle positive freshOpen sprintf_s None None
           (config.newConfig exampleDsn) _ (config.mkDriver 1%positive []) _
           1%positive eq_refl).
Defined.
